(** * Orange Romania account client: session login and poll-cycle aggregation

    A shallow embedding of [custom_components/orange/api.py] (class
    [OrangeAPI]) and of the constants of [const.py] it uses.  The Python
    values the client handles are the results of [json.loads]; the remote
    portal, the local time zone, the C library's way of writing a year and
    Python's [repr] are gathered in a [World] every operation is run
    against.  Exceptions are explicit
    ([outcome]); the client object and the requests it sent are threaded
    through a small state-and-exception monad ([M]). *)

From Stdlib Require Import ZArith List String Ascii Bool Lia.
From Stdlib Require Import DecimalString DecimalZ DecimalPos.
From Stdlib Require Import PrimFloat SpecFloat FloatOps FloatAxioms.
Import ListNotations.

Set Warnings "-inexact-float,-register-all".

Local Open Scope string_scope.
Local Open Scope Z_scope.

(** ** Python values, as [json.loads] produces them *)

Inductive json : Type :=
| JNull
| JBool (b : bool)
| JInt (z : Z)
| JFloat (f : float)
| JStr (s : string)
| JList (l : list json)
| JDict (d : list (string * json)).

(** The exceptions the client can meet; all of them derive from
    [Exception].  [ClientError] is aiohttp's transport failure,
    [ContentTypeError] a body that [response.json()] cannot decode,
    [FetchFailed status] the bare [Exception("Failed to fetch ...")]. *)
Inductive exn : Type :=
| AttributeError
| TypeError
| OverflowError
| ValueError
| KeyError
| ClientError
| ContentTypeError
| FetchFailed (status : Z).

Inductive outcome (A : Type) : Type :=
| Ok (a : A)
| Raise (e : exn).
Arguments Ok {A} a.
Arguments Raise {A} e.

Definition obind {A B} (o : outcome A) (k : A -> outcome B) : outcome B :=
  match o with
  | Ok a => k a
  | Raise e => Raise e
  end.

(** Dictionaries keep insertion order: an association list, read by its
    first binding of a key.  The keys are pairwise distinct in what
    [json.loads] produces and stay so under [dict_set]; nothing below
    relies on it. *)
Fixpoint dict_get {V} (k : string) (d : list (string * V)) : option V :=
  match d with
  | [] => None
  | (k', v) :: d' => if String.eqb k k' then Some v else dict_get k d'
  end.

(** [d[k] = v]: an existing key keeps its position and changes its value,
    a new key goes last. *)
Fixpoint dict_set {V} (k : string) (v : V) (d : list (string * V))
  : list (string * V) :=
  match d with
  | [] => [(k, v)]
  | (k', v') :: d' =>
      if String.eqb k k' then (k, v) :: d' else (k', v') :: dict_set k v d'
  end.

Definition dict_keys {V} (d : list (string * V)) : list string := map fst d.
Definition dict_values {V} (d : list (string * V)) : list V := map snd d.

(** [bool(x)] *)
Definition truthy (x : json) : bool :=
  match x with
  | JNull => false
  | JBool b => b
  | JInt z => negb (z =? 0)
  | JFloat f => negb (PrimFloat.eqb f 0%float)
  | JStr s => negb (String.eqb s "")
  | JList l => match l with [] => false | _ => true end
  | JDict d => match d with [] => false | _ => true end
  end.

(** [x or y] *)
Definition py_or (x y : json) : json := if truthy x then x else y.

(** [x.get(k, default)]: only a dict has [get]. *)
Definition py_get (x : json) (k : string) (default : json) : outcome json :=
  match x with
  | JDict d => Ok (match dict_get k d with Some v => v | None => default end)
  | _ => Raise AttributeError
  end.

(** [x[k]] on a dict (used after [x.get(k)] was truthy). *)
Definition py_getitem (x : json) (k : string) : outcome json :=
  match x with
  | JDict d => match dict_get k d with Some v => Ok v | None => Raise KeyError end
  | _ => Raise TypeError
  end.

(** [x > 0] *)
Definition py_gt0 (x : json) : outcome bool :=
  match x with
  | JBool b => Ok b
  | JInt z => Ok (0 <? z)
  | JFloat f => Ok (PrimFloat.ltb 0%float f)
  | _ => Raise TypeError
  end.

(** Conversion of a Python int to a double: to nearest, ties to even;
    [OverflowError] beyond the range of a double. *)
Definition float_of_Z (z : Z) : outcome float :=
  match binary_normalize 53 1024 z 0 false with
  | S754_infinity _ => Raise OverflowError
  | sf => Ok (SF2Prim sf)
  end.

(** [acc + x] for a float accumulator [acc] (the [+=] of the running
    totals, which start at [0.0]). *)
Definition py_float_add (acc : float) (x : json) : outcome float :=
  match x with
  | JBool b => Ok (PrimFloat.add acc (if b then 1%float else 0%float))
  | JInt z => obind (float_of_Z z) (fun f => Ok (PrimFloat.add acc f))
  | JFloat f => Ok (PrimFloat.add acc f)
  | _ => Raise TypeError
  end.

Fixpoint chars (s : string) : list json :=
  match s with
  | EmptyString => []
  | String c s' => JStr (String c EmptyString) :: chars s'
  end.

(** [for x in v]: the elements of a list, the keys of a dict, the
    characters of a string; nothing else is iterable. *)
Definition py_iter (v : json) : outcome (list json) :=
  match v with
  | JList l => Ok l
  | JDict d => Ok (map (fun kv => JStr (fst kv)) d)
  | JStr s => Ok (chars s)
  | _ => Raise TypeError
  end.

(** [len(v)] *)
Definition py_len (v : json) : outcome Z :=
  match v with
  | JList l => Ok (Z.of_nat (List.length l))
  | JDict d => Ok (Z.of_nat (List.length d))
  | JStr s => Ok (Z.of_nat (String.length s))
  | _ => Raise TypeError
  end.

Definition string_of_Z (z : Z) : string := NilZero.string_of_int (Z.to_int z).

(** ** Calendar dates *)

(** Proleptic Gregorian date of a day count since 1970-01-01. *)
Definition civil_from_days (days : Z) : Z * Z * Z :=
  let z := days + 719468 in
  let era := z / 146097 in
  let doe := z - era * 146097 in
  let yoe := (doe - doe / 1460 + doe / 36524 - doe / 146096) / 365 in
  let doy := doe - (365 * yoe + yoe / 4 - yoe / 100) in
  let mp := (5 * doy + 2) / 153 in
  let d := doy - (153 * mp + 2) / 5 + 1 in
  let m := if mp <? 10 then mp + 3 else mp - 9 in
  let y := yoe + era * 400 + (if m <=? 2 then 1 else 0) in
  (y, m, d).

Definition pad2 (n : Z) : string :=
  if n <? 10 then "0" ++ string_of_Z n else string_of_Z n.

Definition pad4 (n : Z) : string :=
  if n <? 10 then "000" ++ string_of_Z n
  else if n <? 100 then "00" ++ string_of_Z n
  else if n <? 1000 then "0" ++ string_of_Z n
  else string_of_Z n.

(** [strftime("%Y-%m-%d")] of a date in the years 1 to 9999.  The month
    and the day have two digits.  The year is written by the C library of
    the platform: the GNU C library writes it without padding
    (["999-01-01"], ["1-01-02"]), others pad it with zeros to four digits
    (["0999-01-01"]); from the year 1000 on the two agree. *)
Definition strftime_Ymd (pads_year : bool) (ymd : Z * Z * Z) : string :=
  let '(y, m, d) := ymd in
  (if pads_year then pad4 y else string_of_Z y) ++ "-" ++ pad2 m ++ "-" ++ pad2 d.

(** The year of the day that holds second [seconds] of a clock that
    started on 1970-01-01 00:00. *)
Definition year_of (seconds : Z) : Z :=
  let '(y, _, _) := civil_from_days (seconds / 86400) in y.

(** ** The outside world of one run *)

Record response : Type := {
  status : Z;            (* [response.status] *)
  url : string;          (* [response.url], after redirects *)
  body : option json     (* what [response.json()] decodes; [None]: it raises *)
}.

Inductive reply : Type :=
| Transport_error        (* the request itself raises [aiohttp.ClientError] *)
| Reply (r : response).

(** The portal answers a request by its URL (and, for the login form, by
    the credentials posted).  [utc_offset t] is the offset, in seconds, of
    the local time zone at epoch second [t]; [pads_year] tells whether the
    platform's [strftime] pads the year to four digits; [float_seconds f]
    is the whole epoch second [datetime.fromtimestamp] derives from a
    float argument ([None]: it raises); [py_repr] is Python's [repr], used
    for the [str()] of floats, lists and dicts. *)
Record World : Type := {
  http_get : string -> reply;
  http_post : string -> string -> string -> reply;
  utc_offset : Z -> Z;
  pads_year : bool;
  float_seconds : float -> option Z;
  py_repr : json -> string
}.

(** [str(x)], also what [str.format] substitutes for a field without a
    format specification. *)
Definition py_str (w : World) (x : json) : string :=
  match x with
  | JNull => "None"
  | JBool b => if b then "True" else "False"
  | JInt z => string_of_Z z
  | JStr s => s
  | _ => py_repr w x
  end.

(** [datetime.fromtimestamp(due_date_ts / 1000).strftime("%Y-%m-%d")].
    For an int the true division is exact to well below a millisecond over
    the whole range of [datetime], so the whole second is the floor of the
    quotient; [True / 1000] is [0.001].  A conversion that fails raises
    [TypeError], [ValueError], [OverflowError] or [OSError] according to
    the argument; the one caller catches [Exception], and the failures
    other than [TypeError] are all rendered as [ValueError] here. *)
Definition epoch_seconds (w : World) (due_date_ts : json) : outcome Z :=
  match due_date_ts with
  | JBool b => Ok 0
  | JInt z => Ok (z / 1000)
  | JFloat f =>
      match float_seconds w (PrimFloat.div f 1000%float) with
      | Some t => Ok t
      | None => Raise ValueError
      end
  | _ => Raise TypeError
  end.

(** The local clock at epoch second [t], in seconds since 1970-01-01
    00:00 on that clock. *)
Definition local_seconds (w : World) (t : Z) : Z := t + utc_offset w t.

(** The local clock at [t] when its year is one a [datetime] can hold
    ([MINYEAR] = 1 to [MAXYEAR] = 9999); "year ... is out of range"
    otherwise. *)
Definition local (w : World) (t : Z) : outcome Z :=
  let y := year_of (local_seconds w t) in
  if (1 <=? y) && (y <=? 9999) then Ok (local_seconds w t)
  else Raise ValueError.

(** [datetime.fromtimestamp(t).strftime("%Y-%m-%d")] at epoch second [t],
    as CPython computes it on a POSIX platform.  Besides the local time
    at [t], the conversion reads the local time one day earlier, to find
    out whether [t] falls in a repeated hour, and, when the offset dropped
    over that day, the local time at [t] moved back by the drop.  Each of
    them must fall in the years 1 to 9999: the whole first local day of
    year 1 is refused. *)
Definition local_date (w : World) (t : Z) : outcome string :=
  obind (local w t) (fun result_seconds =>
  obind (local w (t - 86400)) (fun probe_seconds =>
  let transition := result_seconds - probe_seconds - 86400 in
  obind (if transition <? 0 then local w (t + transition)
         else Ok probe_seconds) (fun _ =>
  Ok (strftime_Ymd (pads_year w) (civil_from_days (result_seconds / 86400)))))).

Definition fromtimestamp_date (w : World) (due_date_ts : json) : outcome string :=
  obind (epoch_seconds w due_date_ts) (local_date w).

(** ** Constants ([const.py]) *)

Definition BASE_URL : string := "https://www.orange.ro".
Definition MYACCOUNT_URL : string := BASE_URL ++ "/myaccount/".
Definition API_BASE : string := BASE_URL ++ "/myaccount/api/v4".
Definition LOGIN_PAGE_URL : string := MYACCOUNT_URL.
Definition API_USER_DATA : string := API_BASE ++ "/userData".
Definition API_PROFILES : string := API_BASE ++ "/profiles".
Definition API_SUBSCRIBERS : string := API_BASE ++ "/subscribers".
Definition API_SUBSCRIPTIONS_SUMMARY : string :=
  API_BASE ++ "/packages-and-options/subscriptionsSummary".
(** [API_PROFILE_INVOICE_INFO.format(profile_id=...)], given the text
    substituted for the field. *)
Definition API_PROFILE_INVOICE_INFO (profile_id : string) : string :=
  API_BASE ++ "/profile/" ++ profile_id ++ "/invoiceInfo".
Definition API_PROFILE_TRANSACTIONS (profile_id : string) : string :=
  API_BASE ++ "/profiles/" ++ profile_id ++ "/transactions".

(** ** The client object and the monad of its methods *)

Record OrangeAPI : Type := {
  _username : string;
  _password : string;
  _authenticated : bool;
  _sso_id : json;
  _user_data : json
}.

(** [OrangeAPI.__init__] *)
Definition __init__ (username password : string) : OrangeAPI :=
  {| _username := username;
     _password := password;
     _authenticated := false;
     _sso_id := JNull;
     _user_data := JDict [] |}.

Inductive request : Type :=
| Get (url : string)
| Post (url : string) (username password : string).

(** A run: the client object and the requests sent so far, oldest first. *)
Record Run : Type := {
  self : OrangeAPI;
  sent : list request
}.

Definition M (A : Type) : Type := Run -> outcome A * Run.

Definition ret {A} (a : A) : M A := fun s => (Ok a, s).
Definition raise {A} (e : exn) : M A := fun s => (Raise e, s).
Definition bind {A B} (m : M A) (k : A -> M B) : M B :=
  fun s =>
    match m s with
    | (Ok a, s') => k a s'
    | (Raise e, s') => (Raise e, s')
    end.
Definition lift {A} (o : outcome A) : M A := fun s => (o, s).

Notation "x <- m ;; k" := (bind m (fun x => k))
  (at level 61, m at next level, right associativity).
Notation "m ;;; k" := (bind m (fun _ => k))
  (at level 61, right associativity).

Definition send (q : request) (s : Run) : Run :=
  {| self := self s; sent := sent s ++ [q] |}.

(** [async with self._session.get(url, ...) as response] *)
Definition session_get (w : World) (u : string) : M response :=
  fun s =>
    match http_get w u with
    | Transport_error => (Raise ClientError, send (Get u) s)
    | Reply r => (Ok r, send (Get u) s)
    end.

(** [async with self._session.post(url, data=login_data, ...) as response] *)
Definition session_post (w : World) (u : string) : M response :=
  fun s =>
    let q := Post u (_username (self s)) (_password (self s)) in
    match http_post w u (_username (self s)) (_password (self s)) with
    | Transport_error => (Raise ClientError, send q s)
    | Reply r => (Ok r, send q s)
    end.

(** [await response.json()] *)
Definition response_json (r : response) : outcome json :=
  match body r with
  | Some j => Ok j
  | None => Raise ContentTypeError
  end.

(** ** Session Client *)

(** [OrangeAPI._fetch_user_data] *)
Definition _fetch_user_data (w : World) : M json :=
  r <- session_get w API_USER_DATA ;;
  if status r =? 200 then lift (response_json r)
  else raise (FetchFailed (status r)).

(** The three assignments of a verified login (api.py, lines 119-122);
    [_authenticated] is set before [current_user.get] can raise. *)
Definition set_authenticated (s : Run) : Run :=
  {| self := {| _username := _username (self s);
                _password := _password (self s);
                _authenticated := true;
                _sso_id := _sso_id (self s);
                _user_data := _user_data (self s) |};
     sent := sent s |}.

Definition set_identity (sso_id current_user : json) (s : Run) : Run :=
  {| self := {| _username := _username (self s);
                _password := _password (self s);
                _authenticated := _authenticated (self s);
                _sso_id := sso_id;
                _user_data := current_user |};
     sent := sent s |}.

(** [user_data and user_data.get("data", {}).get("isUserLogged")], as a
    condition. *)
Definition is_user_logged (user_data : json) : outcome bool :=
  if truthy user_data then
    obind (py_get user_data "data" (JDict [])) (fun data =>
    obind (py_get data "isUserLogged" JNull) (fun flag =>
    Ok (truthy flag)))
  else Ok false.

(** [OrangeAPI.authenticate].  Both handlers of its [try] log and re-raise,
    so an exception of the body is the exception of the call. *)
Definition authenticate (w : World) : M bool :=
  r1 <- session_get w LOGIN_PAGE_URL ;;
  if negb (status r1 =? 200) then ret false
  else
    let login_url := url r1 in
    r2 <- session_post w login_url ;;
    if negb (status r2 =? 200) then ret false
    else
      user_data <- _fetch_user_data w ;;
      logged <- lift (is_user_logged user_data) ;;
      if logged then
        (fun s => (Ok tt, set_authenticated s)) ;;;
        data <- lift (py_get user_data "data" (JDict [])) ;;
        current_user <- lift (py_get data "currentUser" (JDict [])) ;;
        sso_id <- lift (py_get current_user "ssoId" JNull) ;;
        (fun s => (Ok tt, set_identity sso_id current_user s)) ;;;
        ret true
      else ret false.

(** ** Aggregator *)

(** [OrangeAPI._fetch_profiles] *)
Definition _fetch_profiles (w : World) : M json :=
  r <- session_get w API_PROFILES ;;
  if status r =? 200 then lift (response_json r) else ret (JDict []).

(** [OrangeAPI._fetch_subscribers] *)
Definition _fetch_subscribers (w : World) : M json :=
  r <- session_get w API_SUBSCRIBERS ;;
  if status r =? 200 then lift (response_json r) else ret (JList []).

(** [OrangeAPI._fetch_subscriptions_summary] *)
Definition _fetch_subscriptions_summary (w : World) : M json :=
  r <- session_get w API_SUBSCRIPTIONS_SUMMARY ;;
  if status r =? 200 then lift (response_json r) else ret (JDict []).

(** One value of [unpaid_bills["by_profile"]]. *)
Record UnpaidBill : Type := {
  amount : json;
  services : json;
  installments : json;
  due_date : option string;
  has_invoices : json;
  profile_name : json
}.

(** The dict [unpaid_bills] of [_fetch_unpaid_bills]. *)
Record UnpaidBills : Type := {
  total_amount : float;
  total_count : Z;
  by_profile : list (string * UnpaidBill)
}.

Definition no_unpaid_bills : UnpaidBills :=
  {| total_amount := 0%float; total_count := 0; by_profile := [] |}.

(** What the body of the [try] computes from a response before it touches
    [unpaid_bills] (api.py, lines 318-345): [None] on every path that
    leaves the profile out, otherwise the key, the balance and the record. *)
Definition invoice_record (w : World) (profile profile_id : json) (r : response)
  : outcome (option (string * json * UnpaidBill)) :=
  if status r =? 200 then
    obind (response_json r) (fun invoice_response =>
    obind (py_get invoice_response "data" JNull) (fun invoice_data =>
    if negb (truthy invoice_data) then Ok None
    else
      obind (py_get invoice_data "totalBalanceAmount" (JFloat 0)) (fun b =>
      let total_balance := py_or b (JFloat 0) in
      obind (py_gt0 total_balance) (fun unpaid =>
      if unpaid then
        obind (py_get invoice_data "dueDate" JNull) (fun due_date_ts =>
        obind (if truthy due_date_ts
               then obind (fromtimestamp_date w due_date_ts) (fun d => Ok (Some d))
               else Ok None) (fun due_date_str =>
        obind (py_get invoice_data "totalBalanceServices" (JFloat 0)) (fun sv =>
        obind (py_get invoice_data "totalBalanceInstallments" (JFloat 0)) (fun ins =>
        obind (py_get invoice_data "hasInvoicesOnProfile" (JBool false)) (fun has =>
        obind (py_get profile "name" (JStr "Unknown")) (fun name =>
        Ok (Some (py_str w profile_id, total_balance,
                  {| amount := total_balance;
                     services := py_or sv (JFloat 0);
                     installments := py_or ins (JFloat 0);
                     due_date := due_date_str;
                     has_invoices := has;
                     profile_name := name |}))))))))
      else Ok None))))
  else Ok None.

(** The three updates of [unpaid_bills] (api.py, lines 338-348).  The
    record is stored first; when the addition raises, the totals are left
    as they were and the stored record stays. *)
Definition record_unpaid (ub : UnpaidBills) (key : string) (total_balance : json)
  (rec : UnpaidBill) : UnpaidBills :=
  let stored := dict_set key rec (by_profile ub) in
  match py_float_add (total_amount ub) total_balance with
  | Ok t =>
      {| total_amount := t; total_count := total_count ub + 1; by_profile := stored |}
  | Raise _ =>
      {| total_amount := total_amount ub; total_count := total_count ub;
         by_profile := stored |}
  end.

(** The [try ... except Exception: continue] of the loop for one profile
    whose id is truthy: whatever happens, the loop goes on. *)
Definition invoice_try (w : World) (profile profile_id : json) (ub : UnpaidBills)
  : M UnpaidBills :=
  fun s =>
    match session_get w (API_PROFILE_INVOICE_INFO (py_str w profile_id)) s with
    | (Ok r, s') =>
        match invoice_record w profile profile_id r with
        | Ok (Some (key, total_balance, rec)) =>
            (Ok (record_unpaid ub key total_balance rec), s')
        | Ok None => (Ok ub, s')
        | Raise _ => (Ok ub, s')
        end
    | (Raise _, s') => (Ok ub, s')
    end.

(** The [for profile in profiles] loop; [profile.get("id")] is outside the
    [try]. *)
Fixpoint unpaid_bills_loop (w : World) (profiles : list json) (ub : UnpaidBills)
  : M UnpaidBills :=
  match profiles with
  | [] => ret ub
  | profile :: rest =>
      profile_id <- lift (py_get profile "id" JNull) ;;
      if negb (truthy profile_id) then unpaid_bills_loop w rest ub
      else
        ub' <- invoice_try w profile profile_id ub ;;
        unpaid_bills_loop w rest ub'
  end.

(** [OrangeAPI._fetch_unpaid_bills] *)
Definition _fetch_unpaid_bills (w : World) (profiles : json) : M UnpaidBills :=
  l <- lift (py_iter profiles) ;;
  unpaid_bills_loop w l no_unpaid_bills.

(** The loyalty total of [get_data] (api.py, lines 220-223). *)
Fixpoint loyalty_loop (records : list json) (total : float) : outcome float :=
  match records with
  | [] => Ok total
  | profile :: rest =>
      obind (py_get profile "totalPointsInOnlineShop" (JFloat 0)) (fun pts =>
      obind (py_float_add total pts) (fun total' =>
      loyalty_loop rest total'))
  end.

Definition total_loyalty (subscriptions_data : json) : outcome float :=
  if truthy subscriptions_data then
    obind (py_get subscriptions_data "data" JNull) (fun d =>
    if truthy d then
      obind (py_getitem subscriptions_data "data") (fun d' =>
      obind (py_iter d') (fun l => loyalty_loop l 0%float))
    else Ok 0%float)
  else Ok 0%float.

Record User : Type := {
  sso_id : json;
  username : json;
  email : json;
  first_name : json;
  last_name : json;
  primary_msisdn : json;
  customer_type : json
}.

Record Summary : Type := {
  total_profiles : Z;
  total_subscribers : Z;
  total_loyalty_points : float;
  total_unpaid_amount : float;
  total_unpaid_count : Z
}.

(** The dict [get_data] returns. *)
Record Snapshot : Type := {
  user : User;
  profiles : json;
  subscribers : json;
  subscriptions_summary : json;
  unpaid_bills : UnpaidBills;
  summary : Summary
}.

Definition user_of (user_data : json) : outcome User :=
  obind (py_get user_data "ssoId" JNull) (fun a =>
  obind (py_get user_data "username" JNull) (fun b =>
  obind (py_get user_data "email" JNull) (fun c =>
  obind (py_get user_data "firstName" JNull) (fun d =>
  obind (py_get user_data "lastName" JNull) (fun e =>
  obind (py_get user_data "primaryMsisdn" JNull) (fun f =>
  obind (py_get user_data "customerType" JNull) (fun g =>
  Ok {| sso_id := a; username := b; email := c; first_name := d;
        last_name := e; primary_msisdn := f; customer_type := g |}))))))).

(** The [return] of [get_data] (api.py, lines 225-246), in the order the
    dict display is evaluated. *)
Definition assemble (user_data profiles_list subscribers_data subscriptions_data : json)
  (unpaid_bills_data : UnpaidBills) (total_loyalty_points : float)
  : outcome Snapshot :=
  obind (user_of user_data) (fun u =>
  obind (if truthy subscriptions_data
         then py_get subscriptions_data "data" (JList [])
         else Ok (JList [])) (fun subs_summary =>
  obind (py_len profiles_list) (fun n_profiles =>
  obind (if truthy subscribers_data then py_len subscribers_data else Ok 0)
        (fun n_subscribers =>
  Ok {| user := u;
        profiles := profiles_list;
        subscribers := if truthy subscribers_data then subscribers_data else JList [];
        subscriptions_summary := subs_summary;
        unpaid_bills := unpaid_bills_data;
        summary :=
          {| total_profiles := n_profiles;
             total_subscribers := n_subscribers;
             total_loyalty_points := total_loyalty_points;
             total_unpaid_amount := total_amount unpaid_bills_data;
             total_unpaid_count := total_count unpaid_bills_data |} |})))).

(** [profiles_data.get("profiles", []) if profiles_data else []] *)
Definition profiles_list_of (profiles_data : json) : outcome json :=
  if truthy profiles_data then py_get profiles_data "profiles" (JList [])
  else Ok (JList []).

(** The [try] of [get_data] (api.py, lines 203-246); its handler logs and
    re-raises. *)
Definition fetch_all (w : World) : M Snapshot :=
  profiles_data <- _fetch_profiles w ;;
  subscribers_data <- _fetch_subscribers w ;;
  subscriptions_data <- _fetch_subscriptions_summary w ;;
  profiles_list <- lift (profiles_list_of profiles_data) ;;
  unpaid_bills_data <- _fetch_unpaid_bills w profiles_list ;;
  total_loyalty_points <- lift (total_loyalty subscriptions_data) ;;
  fun s =>
    (assemble (_user_data (self s)) profiles_list subscribers_data
       subscriptions_data unpaid_bills_data total_loyalty_points, s).

(** [if not self._authenticated: await self.authenticate()]: the value
    returned is dropped, an exception is not. *)
Definition ensure_authenticated (w : World) : M unit :=
  fun s =>
    if _authenticated (self s) then (Ok tt, s)
    else (authenticate w ;;; ret tt) s.

(** [OrangeAPI.get_data] *)
Definition get_data (w : World) : M Snapshot :=
  ensure_authenticated w ;;; fetch_all w.

(** [OrangeAPI.get_profile_invoices] and [OrangeAPI.get_profile_transactions] *)
Definition get_profile_invoices (w : World) (profile_id : Z) : M json :=
  ensure_authenticated w ;;;
  r <- session_get w (API_PROFILE_INVOICE_INFO (string_of_Z profile_id)) ;;
  if status r =? 200 then lift (response_json r)
  else raise (FetchFailed (status r)).

Definition get_profile_transactions (w : World) (profile_id : Z) : M json :=
  ensure_authenticated w ;;;
  r <- session_get w (API_PROFILE_TRANSACTIONS (string_of_Z profile_id)) ;;
  if status r =? 200 then lift (response_json r)
  else raise (FetchFailed (status r)).

(** ** The operations read off the world

    The value of a fetch does not depend on the run, only the log does:
    these are the values, as functions of the world, that the properties
    below relate the operations to. *)

(** The three sections of a poll cycle. *)
Inductive section_name : Type := Profiles | Subscribers | SubscriptionsSummary.

Definition section_url (sec : section_name) : string :=
  match sec with
  | Profiles => API_PROFILES
  | Subscribers => API_SUBSCRIBERS
  | SubscriptionsSummary => API_SUBSCRIPTIONS_SUMMARY
  end.

Definition fetch_section (w : World) (sec : section_name) : M json :=
  match sec with
  | Profiles => _fetch_profiles w
  | Subscribers => _fetch_subscribers w
  | SubscriptionsSummary => _fetch_subscriptions_summary w
  end.

(** The empty result a failed section fetch returns. *)
Definition section_empty (sec : section_name) : json :=
  match sec with
  | Profiles => JDict []
  | Subscribers => JList []
  | SubscriptionsSummary => JDict []
  end.

(** What a section fetch returns, read off the world. *)
Definition section_outcome (w : World) (sec : section_name) : outcome json :=
  match http_get w (section_url sec) with
  | Transport_error => Raise ClientError
  | Reply r => if status r =? 200 then response_json r else Ok (section_empty sec)
  end.

Definition section_requests : list request :=
  [Get API_PROFILES; Get API_SUBSCRIBERS; Get API_SUBSCRIPTIONS_SUMMARY].

Definition sends (qs : list request) (s : Run) : Run :=
  {| self := self s; sent := sent s ++ qs |}.

(** The [id] of a profile object, [None] when missing. *)
Definition profile_id_of (d : list (string * json)) : json :=
  match dict_get "id" d with Some v => v | None => JNull end.

(** The ids for which the invoice loop sends a request: the truthy ones. *)
Definition fetched_ids (ds : list (list (string * json))) : list json :=
  filter truthy (map profile_id_of ds).

Definition invoice_request (w : World) (profile_id : json) : request :=
  Get (API_PROFILE_INVOICE_INFO (py_str w profile_id)).

(** What [invoice_try] makes of [unpaid_bills], read off the world: the
    value of the loop body does not depend on the run. *)
Definition invoice_step (w : World) (profile profile_id : json) (ub : UnpaidBills)
  : UnpaidBills :=
  match http_get w (API_PROFILE_INVOICE_INFO (py_str w profile_id)) with
  | Reply r =>
      match invoice_record w profile profile_id r with
      | Ok (Some (key, total_balance, rec)) => record_unpaid ub key total_balance rec
      | _ => ub
      end
  | Transport_error => ub
  end.

(** The loop over a list of profile objects, as a fold. *)
Fixpoint bills_fold (w : World) (ds : list (list (string * json)))
  (ub : UnpaidBills) : UnpaidBills :=
  match ds with
  | [] => ub
  | d :: ds' =>
      if truthy (profile_id_of d)
      then bills_fold w ds' (invoice_step w (JDict d) (profile_id_of d) ub)
      else bills_fold w ds' ub
  end.

(** ** Vocabulary of the properties *)

(** The identity the client holds: [_sso_id] and [_user_data]; it is null
    when both are as the constructor leaves them. *)
Definition identity_is_null (a : OrangeAPI) : Prop :=
  _sso_id a = JNull /\ _user_data a = JDict [].

(** The flag is set, or the identity is still null. *)
Definition identity_guarded (a : OrangeAPI) : Prop :=
  _authenticated a = true \/ identity_is_null a.

(** The states a client object can be in: built by the constructor, then
    taken through any of its public operations, against any world,
    whether the operation returns or raises. *)
Inductive reachable : OrangeAPI -> Prop :=
| reach_init : forall u p, reachable (__init__ u p)
| reach_authenticate : forall w s o s',
    reachable (self s) -> authenticate w s = (o, s') -> reachable (self s')
| reach_get_data : forall w s o s',
    reachable (self s) -> get_data w s = (o, s') -> reachable (self s')
| reach_get_profile_invoices : forall w i s o s',
    reachable (self s) -> get_profile_invoices w i s = (o, s') ->
    reachable (self s')
| reach_get_profile_transactions : forall w i s o s',
    reachable (self s) -> get_profile_transactions w i s = (o, s') ->
    reachable (self s').

(** A verification body in which the [isUserLogged] flag is false or
    missing: an empty body, a body without [data], or a [data] object
    whose flag is missing or falsy. *)
Inductive flag_false_or_absent : json -> Prop :=
| flag_empty_body : forall j, truthy j = false -> flag_false_or_absent j
| flag_no_data : forall d,
    dict_get "data" d = None -> flag_false_or_absent (JDict d)
| flag_missing : forall d dd,
    dict_get "data" d = Some (JDict dd) ->
    dict_get "isUserLogged" dd = None ->
    flag_false_or_absent (JDict d)
| flag_falsy : forall d dd v,
    dict_get "data" d = Some (JDict dd) ->
    dict_get "isUserLogged" dd = Some v -> truthy v = false ->
    flag_false_or_absent (JDict d).

(** The ways a login attempt is turned down without an exception: the
    login page or the credential POST answers a status other than 200, or
    the verification body carries no true [isUserLogged] flag. *)
Inductive turned_down (w : World) (s : Run) : Prop :=
| page_refused : forall r1,
    http_get w LOGIN_PAGE_URL = Reply r1 -> status r1 <> 200 ->
    turned_down w s
| post_refused : forall r1 r2,
    http_get w LOGIN_PAGE_URL = Reply r1 -> status r1 = 200 ->
    http_post w (url r1) (_username (self s)) (_password (self s)) = Reply r2 ->
    status r2 <> 200 ->
    turned_down w s
| not_verified : forall r1 r2 r3 j,
    http_get w LOGIN_PAGE_URL = Reply r1 -> status r1 = 200 ->
    http_post w (url r1) (_username (self s)) (_password (self s)) = Reply r2 ->
    status r2 = 200 ->
    http_get w API_USER_DATA = Reply r3 -> status r3 = 200 ->
    body r3 = Some j -> flag_false_or_absent j ->
    turned_down w s.



(** The [data] object of the invoice reply for a rendered profile id,
    when the reply is HTTP 200 with a JSON object that has one. *)
Definition fetched_invoice (w : World) (key : string)
  : option (list (string * json)) :=
  match http_get w (API_PROFILE_INVOICE_INFO key) with
  | Reply r =>
      if status r =? 200 then
        match body r with
        | Some (JDict b) =>
            match dict_get "data" b with
            | Some (JDict data) => Some data
            | _ => None
            end
        | _ => None
        end
      else None
  | Transport_error => None
  end.

(** The [totalBalanceAmount] fetched for a rendered profile id. *)
Definition fetched_balance (w : World) (key : string) : option json :=
  match fetched_invoice w key with
  | Some data => dict_get "totalBalanceAmount" data
  | None => None
  end.

(** The [dueDate] of an invoice is missing, falsy, or a timestamp that
    converts to a local date. *)
Definition due_date_converts (w : World) (data : list (string * json)) : Prop :=
  match dict_get "dueDate" data with
  | None => True
  | Some ts => truthy ts = false \/ exists d, fromtimestamp_date w ts = Ok d
  end.

(** A JSON object, the one kind of value that has [get]. *)
Definition is_object (x : json) : bool :=
  match x with JDict _ => true | _ => false end.

(** Over the two days up to [t], the local zone is less than a day away
    from UTC (as the zones of the tz database are at all times). *)
Definition zone_within_a_day (w : World) (t : Z) : Prop :=
  forall t', t - 172800 <= t' <= t -> -86400 <= utc_offset w t' < 86400.

(** Every record of the mapping carries the balance fetched for its key,
    and that balance passed [> 0]. *)
Definition records_positive (w : World) (ub : UnpaidBills) : Prop :=
  forall key rec, In (key, rec) (by_profile ub) ->
    fetched_balance w key = Some (amount rec) /\ py_gt0 (amount rec) = Ok true.

(** The sum of amounts accumulated from [acc], left to right, in float
    arithmetic. *)
Fixpoint float_sum (acc : float) (xs : list json) : outcome float :=
  match xs with
  | [] => Ok acc
  | x :: xs' => obind (py_float_add acc x) (fun acc' => float_sum acc' xs')
  end.

Definition amounts (ub : UnpaidBills) : list json :=
  map amount (dict_values (by_profile ub)).

(** The totals agree with the mapping, whenever its amounts can be summed. *)
Definition tallied (ub : UnpaidBills) : Prop :=
  forall t, float_sum 0%float (amounts ub) = Ok t ->
    total_amount ub = t
    /\ total_count ub = Z.of_nat (List.length (by_profile ub)).

(** The rendered ids of the profiles of a list that have a truthy id. *)
Definition profile_keys (w : World) (profiles : json) : list string :=
  match py_iter profiles with
  | Ok l =>
      map (py_str w)
        (filter truthy
           (map (fun p => match py_get p "id" JNull with
                          | Ok v => v
                          | Raise _ => JNull
                          end) l))
  | Raise _ => []
  end.

(** A relation between the run before and the run after holds of every
    execution of an operation. *)
Definition preserved (R : Run -> Run -> Prop) {A} (m : M A) : Prop :=
  forall s o s', m s = (o, s') -> R s s'.

(** The operation left the client object alone. *)
Definition same_self (s s' : Run) : Prop := self s' = self s.

(** Requests are only ever added to the log. *)
Definition log_grows (s s' : Run) : Prop :=
  forall q, In q (sent s) -> In q (sent s').

(** ** Example worlds *)

Definition ok200 (u : string) (j : json) : reply :=
  Reply {| status := 200; url := u; body := Some j |}.

Definition failed (code : Z) (u : string) : reply :=
  Reply {| status := code; url := u; body := None |}.

(** A portal given by a table of replies; every other URL answers 404.
    The local zone has a fixed offset and the C library is GNU's. *)
Definition portal (gets : list (string * reply)) (post : reply) (offset : Z)
  : World :=
  {| http_get := fun u =>
       match dict_get u gets with Some r => r | None => failed 404 u end;
     http_post := fun _ _ _ => post;
     utc_offset := fun _ => offset;
     pads_year := false;
     float_seconds := fun _ => None;
     py_repr := fun _ => "" |}.

Definition fresh : Run :=
  {| self := __init__ "0700123456" "secret"; sent := [] |}.

Definition logged_in : Run :=
  {| self := {| _username := "0700123456"; _password := "secret";
                _authenticated := true; _sso_id := JInt 12345;
                _user_data := JDict [("ssoId", JInt 12345);
                                     ("username", JStr "user")] |};
     sent := [] |}.

Definition login_url : string := "https://www.orange.ro/login?ak=1".

Definition login_page : string * reply :=
  (LOGIN_PAGE_URL, ok200 login_url JNull).

Definition user_data_of (data : json) : string * reply :=
  (API_USER_DATA, ok200 API_USER_DATA (JDict [("data", data)])).

Definition john_doe : json :=
  JDict [("id", JInt 100000001); ("name", JStr "John Doe")].

Definition john_doe_invoice : json :=
  JDict [("data", JDict [("totalBalanceAmount", JFloat 129.41);
                         ("dueDate", JInt 1771200000000)])].

Definition john_doe_bill (due : string) : UnpaidBill :=
  {| amount := JFloat 129.41;
     services := JFloat 0;
     installments := JFloat 0;
     due_date := Some due;
     has_invoices := JBool false;
     profile_name := JStr "John Doe" |}.

Definition invoice_of (balance due : json) : json :=
  JDict [("data", JDict [("totalBalanceAmount", balance); ("dueDate", due)])].

Definition profile_1 : list (string * json) := [("id", JInt 1)].
Definition profile_2 : list (string * json) := [("id", JInt 2)].

(** The POST is accepted with HTTP 200, the portal reports the user as not
    logged in. *)
Definition not_logged_world : World :=
  portal [login_page; user_data_of (JDict [("isUserLogged", JBool false)])]
    (ok200 login_url JNull) 0.

(** The verification body is [{"data": null}]. *)
Definition data_null_world : World :=
  portal [login_page; user_data_of JNull] (ok200 login_url JNull) 0.

(** The verification endpoint answers HTTP 500. *)
Definition verification_down_world : World :=
  portal [login_page; (API_USER_DATA, failed 500 API_USER_DATA)]
    (ok200 login_url JNull) 0.

(** The portal reports the user as logged in and sends no [currentUser]. *)
Definition anonymous_world : World :=
  portal [login_page; user_data_of (JDict [("isUserLogged", JBool true)])]
    (ok200 login_url JNull) 0.

(** The portal reports the user as logged in, with an identity. *)
Definition welcome_world : World :=
  portal [login_page;
          user_data_of (JDict [("isUserLogged", JBool true);
                               ("currentUser",
                                JDict [("ssoId", JInt 12345);
                                       ("username", JStr "user")])])]
    (ok200 login_url JNull) 0.

(** The login page answers HTTP 503; the data endpoints answer. *)
Definition login_down_world : World :=
  portal [(LOGIN_PAGE_URL, failed 503 LOGIN_PAGE_URL);
          (API_PROFILES, ok200 API_PROFILES (JDict [("profiles", JList [john_doe])]));
          (API_SUBSCRIBERS, ok200 API_SUBSCRIBERS (JList []));
          (API_SUBSCRIPTIONS_SUMMARY, ok200 API_SUBSCRIPTIONS_SUMMARY (JDict []))]
    Transport_error 0.

(** The login page cannot be reached. *)
Definition unreachable_world : World :=
  portal [(LOGIN_PAGE_URL, Transport_error)] Transport_error 0.

(** Only John Doe's invoice is served, in a time zone [offset] seconds
    east of UTC. *)
Definition john_doe_world (offset : Z) : World :=
  portal [(API_PROFILE_INVOICE_INFO "100000001", ok200 "" john_doe_invoice)]
    Transport_error offset.

(** Two profiles: the invoice request of the first answers HTTP 500, the
    invoice of the second has a positive balance and a due date that is
    not a timestamp. *)
Definition bad_due_date_world : World :=
  portal [(API_PROFILE_INVOICE_INFO "1", failed 500 "");
          (API_PROFILE_INVOICE_INFO "2",
           ok200 "" (invoice_of (JInt 10) (JStr "2026-02-15")))]
    Transport_error 0.

(** The invoice request of profile 1 fails, in three ways; profile 2 owes
    10. *)
Definition one_fails_world (failure : reply) : World :=
  portal [(API_PROFILE_INVOICE_INFO "1", failure);
          (API_PROFILE_INVOICE_INFO "2", ok200 "" (invoice_of (JInt 10) JNull))]
    Transport_error 0.

(** John Doe is listed twice. *)
Definition listed_twice_world : World :=
  portal [(API_PROFILES,
           ok200 API_PROFILES (JDict [("profiles", JList [john_doe; john_doe])]));
          (API_PROFILE_INVOICE_INFO "100000001", ok200 "" john_doe_invoice)]
    Transport_error 0.

(** One profile, whose balance is an integer beyond the range of a
    double. *)
Definition huge_balance_world : World :=
  portal [(API_PROFILES,
           ok200 API_PROFILES (JDict [("profiles", JList [JDict profile_1])]));
          (API_PROFILE_INVOICE_INFO "1",
           ok200 "" (invoice_of (JInt (10 ^ 400)) JNull))]
    Transport_error 0.

(** John Doe owes 129.41; profile 2 owes nothing; the subscribers
    endpoint answers HTTP 503. *)
Definition billing_world : World :=
  portal [(API_PROFILES,
           ok200 API_PROFILES
             (JDict [("profiles", JList [john_doe; JDict profile_2])]));
          (API_SUBSCRIBERS, failed 503 API_SUBSCRIBERS);
          (API_SUBSCRIPTIONS_SUMMARY,
           ok200 API_SUBSCRIPTIONS_SUMMARY
             (JDict [("data", JList [JDict [("totalPointsInOnlineShop", JFloat 4.38)]])]));
          (API_PROFILE_INVOICE_INFO "100000001", ok200 "" john_doe_invoice);
          (API_PROFILE_INVOICE_INFO "2",
           ok200 "" (invoice_of (JInt 0) JNull))]
    Transport_error 0.

(** The only profile listed has the id [0]. *)
Definition id_zero_world : World :=
  portal [(API_PROFILES,
           ok200 API_PROFILES
             (JDict [("profiles",
                      JList [JDict [("id", JInt 0); ("name", JStr "John Doe")]])]))]
    Transport_error 0.

(** The profiles are served, the subscribers request does not get through. *)
Definition subscribers_unreachable_world : World :=
  portal [(API_PROFILES,
           ok200 API_PROFILES (JDict [("profiles", JList [john_doe])]));
          (API_SUBSCRIBERS, Transport_error);
          (API_SUBSCRIPTIONS_SUMMARY, ok200 API_SUBSCRIPTIONS_SUMMARY (JDict []))]
    Transport_error 0.

(** ** Further vocabulary: the rest of the client *)

(** One of the three requests of a login meets a transport error. *)
Inductive transport_fails (w : World) (s : Run) : Prop :=
| page_unreachable :
    http_get w LOGIN_PAGE_URL = Transport_error -> transport_fails w s
| post_unreachable : forall r1,
    http_get w LOGIN_PAGE_URL = Reply r1 -> status r1 = 200 ->
    http_post w (url r1) (_username (self s)) (_password (self s))
    = Transport_error ->
    transport_fails w s
| verification_unreachable : forall r1 r2,
    http_get w LOGIN_PAGE_URL = Reply r1 -> status r1 = 200 ->
    http_post w (url r1) (_username (self s)) (_password (self s)) = Reply r2 ->
    status r2 = 200 ->
    http_get w API_USER_DATA = Transport_error ->
    transport_fails w s.

(** The login page and the credential POST answer HTTP 200, and the
    verification body reports the user as logged in; [data] is its [data]
    object. *)
Definition verified (w : World) (s : Run) (r1 : response)
  (data : list (string * json)) : Prop :=
  http_get w LOGIN_PAGE_URL = Reply r1 /\ status r1 = 200
  /\ (exists r2,
        http_post w (url r1) (_username (self s)) (_password (self s)) = Reply r2
        /\ status r2 = 200)
  /\ (exists r3 d,
        http_get w API_USER_DATA = Reply r3 /\ status r3 = 200
        /\ body r3 = Some (JDict d)
        /\ dict_get "data" d = Some (JDict data))
  /\ (exists v, dict_get "isUserLogged" data = Some v /\ truthy v = true).

(** The three requests of a login, for the client [a] and the login URL
    the page redirected to. *)
Definition login_requests (a : OrangeAPI) (login_url : string) : list request :=
  [Get LOGIN_PAGE_URL; Post login_url (_username a) (_password a);
   Get API_USER_DATA].

(** The client after a verified login that stored [current_user]. *)
Definition signed_in (a : OrangeAPI) (current_user : list (string * json))
  : OrangeAPI :=
  {| _username := _username a;
     _password := _password a;
     _authenticated := true;
     _sso_id := match dict_get "ssoId" current_user with
                | Some v => v
                | None => JNull
                end;
     _user_data := JDict current_user |}.

(** The client after [_authenticated = True], before the identity is
    written. *)
Definition flagged (a : OrangeAPI) : OrangeAPI :=
  {| _username := _username a;
     _password := _password a;
     _authenticated := true;
     _sso_id := _sso_id a;
     _user_data := _user_data a |}.

(** One public operation of the client, run against any world, whether it
    returns or raises. *)
Inductive operation : Run -> Run -> Prop :=
| op_authenticate : forall w s o s',
    authenticate w s = (o, s') -> operation s s'
| op_get_data : forall w s o s',
    get_data w s = (o, s') -> operation s s'
| op_get_profile_invoices : forall w i s o s',
    get_profile_invoices w i s = (o, s') -> operation s s'
| op_get_profile_transactions : forall w i s o s',
    get_profile_transactions w i s = (o, s') -> operation s s'.

Definition is_get (q : request) : Prop := exists u, q = Get u.

(** The operation left the client object alone and added only GET
    requests to the log. *)
Definition only_gets (s s' : Run) : Prop :=
  self s' = self s
  /\ exists l, sent s' = (sent s ++ l)%list /\ Forall is_get l.

(** [profile.get("totalPointsInOnlineShop", 0.0)] on a record. *)
Definition points_of (d : list (string * json)) : json :=
  match dict_get "totalPointsInOnlineShop" d with
  | Some v => v
  | None => JFloat 0
  end.

(** The portal reports the user as logged in and sends [null] for
    [currentUser]. *)
Definition null_user_world : World :=
  portal [login_page;
          user_data_of (JDict [("isUserLogged", JBool true);
                               ("currentUser", JNull)])]
    (ok200 login_url JNull) 0.

(** The login page is served, the credential POST does not get through. *)
Definition post_unreachable_world : World :=
  portal [login_page] Transport_error 0.

(** The credentials are the same and a set flag is still set. *)
Definition session_kept (a a' : OrangeAPI) : Prop :=
  _username a' = _username a /\ _password a' = _password a
  /\ (_authenticated a = true -> _authenticated a' = true).

(** A value that cannot be added to a float. *)
Definition not_a_number (x : json) : Prop :=
  match x with
  | JNull | JStr _ | JList _ | JDict _ => True
  | _ => False
  end.

(** The subscriptions summary lists one record, whose points are [null]. *)
Definition null_points_world : World :=
  portal [(API_SUBSCRIPTIONS_SUMMARY,
           ok200 API_SUBSCRIPTIONS_SUMMARY
             (JDict [("data",
                      JList [JDict [("totalPointsInOnlineShop", JNull)]])]))]
    Transport_error 0.

(** [invoice_data.get(k, 0.0) or 0.0], given the member. *)
Definition or_zero (member : option json) : json :=
  match member with
  | Some v => if truthy v then v else JFloat 0
  | None => JFloat 0
  end.

(** The name given to the record of a profile object:
    [profile.get("name", "Unknown")]. *)
Definition name_of (d : list (string * json)) : json :=
  match dict_get "name" d with Some v => v | None => JStr "Unknown" end.

(** The due date of a record made from the invoice [data]: none when
    [dueDate] is missing or falsy, otherwise the local date of the
    timestamp. *)
Definition due_date_of (w : World) (data : list (string * json))
  (due : option string) : Prop :=
  match dict_get "dueDate" data with
  | None => due = None
  | Some ts =>
      if truthy ts then exists d, fromtimestamp_date w ts = Ok d /\ due = Some d
      else due = None
  end.

(** A record of the mapping reflects the invoice fetched for its key, and
    is named after a listed profile that renders to that key. *)
Definition record_reflects (w : World) (ds : list (list (string * json)))
  (key : string) (rec : UnpaidBill) : Prop :=
  exists data,
    fetched_invoice w key = Some data
    /\ dict_get "totalBalanceAmount" data = Some (amount rec)
    /\ services rec = or_zero (dict_get "totalBalanceServices" data)
    /\ installments rec = or_zero (dict_get "totalBalanceInstallments" data)
    /\ has_invoices rec
       = match dict_get "hasInvoicesOnProfile" data with
         | Some v => v
         | None => JBool false
         end
    /\ due_date_of w data (due_date rec)
    /\ exists d, In d ds /\ truthy (profile_id_of d) = true
                 /\ py_str w (profile_id_of d) = key
                 /\ profile_name rec = name_of d.

(** The mapping is a dict over listed profiles, and the count is within
    bounds. *)
Definition well_keyed (w : World) (ds : list (list (string * json)))
  (ub : UnpaidBills) : Prop :=
  NoDup (dict_keys (by_profile ub))
  /\ (forall key, In key (dict_keys (by_profile ub)) ->
                  In key (map (py_str w) (fetched_ids ds)))
  /\ 0 <= total_count ub <= Z.of_nat (List.length (fetched_ids ds)).

(** ** The per-profile unpaid-bills sensor ([sensor.py])

    [coordinator.data] is the last snapshot [get_data] returned, [None]
    before there is one. *)

(** [OrangeProfileUnpaidBillsSensor.native_value], for the sensor of the
    integer [_profile_id]. *)
Definition OrangeProfileUnpaidBillsSensor_native_value (data : option Snapshot)
  (_profile_id : Z) : json :=
  match data with
  | Some snap =>
      match dict_get (string_of_Z _profile_id) (by_profile (unpaid_bills snap)) with
      | Some profile_data => amount profile_data
      | None => JFloat 0
      end
  | None => JFloat 0
  end.

(** The profiles endpoint answers HTTP 500; an invoice is on offer. *)
Definition profiles_down_world : World :=
  portal [(API_PROFILES, failed 500 API_PROFILES);
          (API_PROFILE_INVOICE_INFO "100000001", ok200 "" john_doe_invoice)]
    Transport_error 0.

(** * Properties *)

(** ** The model at work *)

Example civil_from_days_epoch : civil_from_days 0 = (1970, 1, 1).
Proof. reflexivity. Qed.

Example civil_from_days_leap_day : civil_from_days 19782 = (2024, 2, 29).
Proof. reflexivity. Qed.

Example civil_from_days_before_epoch :
  forall pads, strftime_Ymd pads (civil_from_days (-1)) = "1969-12-31".
Proof. intros []; reflexivity. Qed.

Example strftime_year_999 :
  strftime_Ymd false (civil_from_days (-354650)) = "999-01-01"
  /\ strftime_Ymd true (civil_from_days (-354650)) = "0999-01-01".
Proof. split; reflexivity. Qed.

(** In UTC the first second [datetime.fromtimestamp] accepts is that of
    0001-01-02 00:00, the last one that of 9999-12-31 23:59:59. *)
Example local_date_range :
  let utc := portal [] Transport_error 0 in
  local_date utc (-62135596800) = Raise ValueError
  /\ local_date utc (-62135510401) = Raise ValueError
  /\ local_date utc (-62135510400) = Ok "1-01-02"
  /\ local_date utc 253402300799 = Ok "9999-12-31"
  /\ local_date utc 253402300800 = Raise ValueError.
Proof. repeat split. Qed.

Example fromtimestamp_date_year_999 :
  fromtimestamp_date (portal [] Transport_error 0) (JInt (-30641759999999))
  = Ok "999-01-01".
Proof. reflexivity. Qed.

Example string_of_Z_id : string_of_Z 100000001 = "100000001".
Proof. reflexivity. Qed.

Example float_of_Z_rounds_to_even :
  float_of_Z (2 ^ 53 + 1) = Ok 9007199254740992%float.
Proof. vm_compute. reflexivity. Qed.

Example float_of_Z_overflow : float_of_Z (10 ^ 400) = Raise OverflowError.
Proof. vm_compute. reflexivity. Qed.

(** A login that is verified sets the flag and the identity. *)
Example authenticate_welcome :
  authenticate welcome_world fresh
  = (Ok true,
     {| self := {| _username := "0700123456"; _password := "secret";
                   _authenticated := true; _sso_id := JInt 12345;
                   _user_data := JDict [("ssoId", JInt 12345);
                                        ("username", JStr "user")] |};
        sent := [Get LOGIN_PAGE_URL; Post login_url "0700123456" "secret";
                 Get API_USER_DATA] |}).
Proof. reflexivity. Qed.

(** A poll cycle: two profiles, one unpaid bill, no subscribers. *)
Example get_data_billing :
  exists snap,
    fst (get_data billing_world logged_in) = Ok snap
    /\ user snap
       = {| sso_id := JInt 12345; username := JStr "user"; email := JNull;
            first_name := JNull; last_name := JNull; primary_msisdn := JNull;
            customer_type := JNull |}
    /\ summary snap
       = {| total_profiles := 2; total_subscribers := 0;
            total_loyalty_points := 4.38; total_unpaid_amount := 129.41;
            total_unpaid_count := 1 |}
    /\ sent (snd (get_data billing_world logged_in))
       = (section_requests
            ++ [Get (API_PROFILE_INVOICE_INFO "100000001");
                Get (API_PROFILE_INVOICE_INFO "2")])%list.
Proof.
  eexists. split; [vm_compute; reflexivity|]. vm_compute. repeat split.
Qed.

(** ** Session Client *)

Lemma authenticate_login_page_refused w s r1 :
  http_get w LOGIN_PAGE_URL = Reply r1 -> status r1 <> 200 ->
  authenticate w s = (Ok false, send (Get LOGIN_PAGE_URL) s).
Proof.
  intros H1 N1. unfold authenticate, bind, session_get. rewrite H1.
  apply Z.eqb_neq in N1. rewrite N1. reflexivity.
Qed.

Lemma authenticate_post_refused w s r1 r2 :
  http_get w LOGIN_PAGE_URL = Reply r1 -> status r1 = 200 ->
  http_post w (url r1) (_username (self s)) (_password (self s)) = Reply r2 ->
  status r2 <> 200 ->
  exists s', authenticate w s = (Ok false, s') /\ self s' = self s.
Proof.
  intros H1 E1 H2 N2. unfold authenticate, bind, session_get, session_post.
  rewrite H1, E1. cbn [send self negb Z.eqb Pos.eqb].
  rewrite H2. apply Z.eqb_neq in N2. rewrite N2. cbn.
  eexists. split; reflexivity.
Qed.

Lemma is_user_logged_false j :
  flag_false_or_absent j -> is_user_logged j = Ok false.
Proof.
  intros [j' F | d Hd | d dd Hd Hf | d dd v Hd Hf Hv]; unfold is_user_logged.
  - rewrite F. reflexivity.
  - destruct (truthy (JDict d)); [|reflexivity]. cbn. rewrite Hd. reflexivity.
  - destruct (truthy (JDict d)); [|reflexivity]. cbn. rewrite Hd. cbn.
    rewrite Hf. reflexivity.
  - destruct (truthy (JDict d)); [|reflexivity]. cbn. rewrite Hd. cbn.
    rewrite Hf, Hv. reflexivity.
Qed.

Lemma authenticate_not_verified w s r1 r2 r3 j :
  http_get w LOGIN_PAGE_URL = Reply r1 -> status r1 = 200 ->
  http_post w (url r1) (_username (self s)) (_password (self s)) = Reply r2 ->
  status r2 = 200 ->
  http_get w API_USER_DATA = Reply r3 -> status r3 = 200 ->
  body r3 = Some j -> flag_false_or_absent j ->
  exists s', authenticate w s = (Ok false, s') /\ self s' = self s.
Proof.
  intros H1 E1 H2 E2 H3 E3 B3 F.
  unfold authenticate, bind, session_get, session_post, _fetch_user_data,
    bind, session_get, lift, response_json.
  rewrite H1, E1. cbn [send self negb Z.eqb Pos.eqb].
  rewrite H2, E2. cbn [send self negb Z.eqb Pos.eqb].
  rewrite H3, E3, B3. cbn [send self negb Z.eqb Pos.eqb].
  rewrite (is_user_logged_false j F). cbn.
  eexists. split; reflexivity.
Qed.

(** C5 (as amended).  [authenticate] returns [False] without raising, and
    leaves the client object as it was (so a flag that was false stays
    false), when the login page or the credential POST answers a status
    other than 200, or when both answer 200 and the verification body is
    empty, has no [data], or has a [data] object whose [isUserLogged] is
    missing or falsy. *)
Theorem authenticate_turned_down_returns_false w s :
  turned_down w s ->
  exists s', authenticate w s = (Ok false, s') /\ self s' = self s.
Proof.
  intros [r1 H1 N1 | r1 r2 H1 E1 H2 N2 | r1 r2 r3 j H1 E1 H2 E2 H3 E3 B3 F].
  - rewrite (authenticate_login_page_refused w s r1 H1 N1).
    eexists. split; reflexivity.
  - exact (authenticate_post_refused w s r1 r2 H1 E1 H2 N2).
  - exact (authenticate_not_verified w s r1 r2 r3 j H1 E1 H2 E2 H3 E3 B3 F).
Qed.

(** The example of the specification: the login POST answers HTTP 200 and
    [isUserLogged] is false. *)
Lemma authenticate_turned_down_witness :
  exists s', authenticate not_logged_world fresh = (Ok false, s')
             /\ self s' = self fresh.
Proof.
  apply (authenticate_turned_down_returns_false not_logged_world fresh).
  eapply not_verified; try reflexivity.
  eapply flag_falsy; reflexivity.
Defined.

(** C5 fails as stated: with every status 200 and the verification body
    [{"data": null}], the flag is absent and [authenticate] raises
    ([None] has no [get]). *)
Lemma authenticate_data_null_raises :
  authenticate data_null_world fresh
  = (Raise AttributeError,
     {| self := self fresh;
        sent := [Get LOGIN_PAGE_URL; Post login_url "0700123456" "secret";
                 Get API_USER_DATA] |}).
Proof. reflexivity. Qed.

(** C10.  When the login page and the credential POST answer HTTP 200 and
    the verification request answers another status, [authenticate]
    raises, and the client object is untouched: a flag that was false is
    still false. *)
Theorem authenticate_verification_status_raises w s r1 r2 r3 :
  http_get w LOGIN_PAGE_URL = Reply r1 -> status r1 = 200 ->
  http_post w (url r1) (_username (self s)) (_password (self s)) = Reply r2 ->
  status r2 = 200 ->
  http_get w API_USER_DATA = Reply r3 -> status r3 <> 200 ->
  _authenticated (self s) = false ->
  exists s', authenticate w s = (Raise (FetchFailed (status r3)), s')
             /\ self s' = self s
             /\ _authenticated (self s') = false.
Proof.
  intros H1 E1 H2 E2 H3 N3 A.
  unfold authenticate, bind, session_get, session_post, _fetch_user_data,
    bind, session_get, raise.
  rewrite H1, E1. cbn [send self negb Z.eqb Pos.eqb].
  rewrite H2, E2. cbn [send self negb Z.eqb Pos.eqb].
  rewrite H3. apply Z.eqb_neq in N3. rewrite N3. cbn.
  eexists. split; [reflexivity|]. split; [reflexivity|exact A].
Qed.

Lemma authenticate_verification_status_witness :
  exists s', authenticate verification_down_world fresh
             = (Raise (FetchFailed 500), s')
             /\ self s' = self fresh
             /\ _authenticated (self s') = false.
Proof.
  apply (authenticate_verification_status_raises verification_down_world fresh
           {| status := 200; url := login_url; body := Some JNull |}
           {| status := 200; url := login_url; body := Some JNull |}
           {| status := 500; url := API_USER_DATA; body := None |});
    try reflexivity.
  cbn. lia.
Defined.

(** [authenticate] either leaves the client object alone or has set the
    flag. *)
Lemma authenticate_self w s o s' :
  authenticate w s = (o, s') ->
  self s' = self s \/ _authenticated (self s') = true.
Proof.
  unfold authenticate, bind, session_get, session_post, _fetch_user_data,
    bind, session_get, lift, raise, ret.
  destruct (http_get w LOGIN_PAGE_URL) as [|r1];
    [intros E; inversion E; left; reflexivity|].
  destruct (status r1 =? 200); cbn [negb];
    [|intros E; inversion E; left; reflexivity].
  cbn [send self].
  destruct (http_post w (url r1) _ _) as [|r2];
    [intros E; inversion E; left; reflexivity|].
  destruct (status r2 =? 200); cbn [negb];
    [|intros E; inversion E; left; reflexivity].
  cbn [send self].
  destruct (http_get w API_USER_DATA) as [|r3];
    [intros E; inversion E; left; reflexivity|].
  destruct (status r3 =? 200);
    [|intros E; inversion E; left; reflexivity].
  destruct (response_json r3) as [user_data|e];
    [|intros E; inversion E; left; reflexivity].
  destruct (is_user_logged user_data) as [[|]|e];
    try (intros E; inversion E; left; reflexivity).
  destruct (py_get user_data "data" (JDict [])) as [data|e];
    [|intros E; inversion E; right; reflexivity].
  destruct (py_get data "currentUser" (JDict [])) as [cu|e];
    [|intros E; inversion E; right; reflexivity].
  destruct (py_get cu "ssoId" JNull) as [sso|e];
    intros E; inversion E; right; reflexivity.
Qed.

Lemma ensure_authenticated_self w s o s' :
  ensure_authenticated w s = (o, s') ->
  self s' = self s \/ _authenticated (self s') = true.
Proof.
  unfold ensure_authenticated, bind, ret.
  destruct (_authenticated (self s)).
  - intros E; inversion E; left; reflexivity.
  - destruct (authenticate w s) as [[b|e] s1] eqn:A;
      intros E; inversion E; subst; exact (authenticate_self w s _ _ A).
Qed.

Lemma session_get_self w u s o s' :
  session_get w u s = (o, s') -> self s' = self s.
Proof.
  unfold session_get. destruct (http_get w u); intros E; inversion E; reflexivity.
Qed.

(** *** What every data fetch preserves *)

Section Preserved.
Variable R : Run -> Run -> Prop.
Hypothesis R_refl : forall s, R s s.
Hypothesis R_trans : forall s1 s2 s3, R s1 s2 -> R s2 s3 -> R s1 s3.
Hypothesis R_send : forall q s, R s (send q s).

Lemma preserved_ret {A} (a : A) : preserved R (ret a).
Proof. intros s o s' E; inversion E; subst; apply R_refl. Qed.

Lemma preserved_raise {A} e : preserved R (@raise A e).
Proof. intros s o s' E; inversion E; subst; apply R_refl. Qed.

Lemma preserved_lift {A} (x : outcome A) : preserved R (lift x).
Proof. intros s o s' E; inversion E; subst; apply R_refl. Qed.

Lemma preserved_get w u : preserved R (session_get w u).
Proof.
  intros s o s'. unfold session_get.
  destruct (http_get w u); intros E; inversion E; subst; apply R_send.
Qed.

Lemma preserved_bind {A B} (m : M A) (k : A -> M B) :
  preserved R m -> (forall a, preserved R (k a)) -> preserved R (bind m k).
Proof.
  intros Hm Hk s o s'. unfold bind.
  destruct (m s) as [[a|e] s1] eqn:E1; intros E2.
  - exact (R_trans _ _ _ (Hm _ _ _ E1) (Hk a _ _ _ E2)).
  - inversion E2; subst. exact (Hm _ _ _ E1).
Qed.

Lemma preserved_if {A} (b : bool) (m1 m2 : M A) :
  preserved R m1 -> preserved R m2 -> preserved R (if b then m1 else m2).
Proof. destruct b; auto. Qed.

Lemma preserved_invoice_try w p i ub : preserved R (invoice_try w p i ub).
Proof.
  intros s o s'. unfold invoice_try.
  destruct (session_get w _ s) as [[r|e] s1] eqn:G;
    [destruct (invoice_record w p i r) as [[[[k b] rec]|]|e]|];
    intros E; inversion E; subst; exact (preserved_get _ _ _ _ _ G).
Qed.

Lemma preserved_loop w l : forall ub, preserved R (unpaid_bills_loop w l ub).
Proof.
  induction l as [|p l IH]; intros ub; cbn [unpaid_bills_loop].
  - apply preserved_ret.
  - apply preserved_bind; [apply preserved_lift|]. intros i.
    apply preserved_if; [apply IH|].
    apply preserved_bind; [apply preserved_invoice_try | intros ub'; apply IH].
Qed.

Lemma preserved_section w sec : preserved R (fetch_section w sec).
Proof.
  destruct sec; (apply preserved_bind; [apply preserved_get|]); intros r;
    apply preserved_if;
    first [apply preserved_lift | apply preserved_ret].
Qed.

Lemma preserved_unpaid_bills w pl : preserved R (_fetch_unpaid_bills w pl).
Proof.
  apply preserved_bind; [apply preserved_lift|]. intros l. apply preserved_loop.
Qed.

Lemma preserved_fetch_all w : preserved R (fetch_all w).
Proof.
  unfold fetch_all.
  apply preserved_bind; [apply (preserved_section w Profiles)|]. intros pd.
  apply preserved_bind; [apply (preserved_section w Subscribers)|]. intros sd.
  apply preserved_bind; [apply (preserved_section w SubscriptionsSummary)|].
  intros qd.
  apply preserved_bind; [apply preserved_lift|]. intros pl.
  apply preserved_bind; [apply preserved_unpaid_bills|]. intros ub.
  apply preserved_bind; [apply preserved_lift|]. intros t.
  intros s o s' E; inversion E; subst; apply R_refl.
Qed.

Lemma preserved_status_or_raise w u :
  preserved R (r <- session_get w u ;;
             if status r =? 200 then lift (response_json r)
             else raise (FetchFailed (status r))).
Proof.
  apply preserved_bind; [apply preserved_get|]. intros r.
  apply preserved_if; [apply preserved_lift | apply preserved_raise].
Qed.
End Preserved.

(** No data fetch touches the client object. *)
Lemma fetch_all_self w s o s' : fetch_all w s = (o, s') -> self s' = self s.
Proof.
  apply (preserved_fetch_all same_self); unfold same_self; try reflexivity.
  intros s1 s2 s3 H1 H2. congruence.
Qed.

Lemma status_or_raise_self w u s o s' :
  (r <- session_get w u ;;
   if status r =? 200 then lift (response_json r)
   else raise (FetchFailed (status r))) s = (o, s') ->
  self s' = self s.
Proof.
  apply (preserved_status_or_raise same_self); unfold same_self; try reflexivity.
  intros s1 s2 s3 H1 H2. congruence.
Qed.

Lemma log_grows_refl s : log_grows s s.
Proof. intros q H; exact H. Qed.

Lemma log_grows_trans s1 s2 s3 :
  log_grows s1 s2 -> log_grows s2 s3 -> log_grows s1 s3.
Proof. intros H1 H2 q H; apply H2, H1, H. Qed.

Lemma log_grows_send q s : log_grows s (send q s).
Proof. intros q' H. cbn. apply in_or_app. left. exact H. Qed.

Ltac grows :=
  repeat first
    [ apply (preserved_if log_grows)
    | apply (preserved_lift log_grows log_grows_refl)
    | apply (preserved_ret log_grows log_grows_refl)
    | apply (preserved_section log_grows log_grows_refl log_grows_trans
               log_grows_send)
    | apply (preserved_unpaid_bills log_grows log_grows_refl log_grows_trans
               log_grows_send)
    | apply (preserved_get log_grows log_grows_send)
    | apply (preserved_bind log_grows log_grows_trans); [|intros ?] ].

(** Whatever comes of it, a run of [fetch_all] has sent the profiles
    request. *)
Lemma fetch_all_log w s o s' :
  fetch_all w s = (o, s') -> In (Get API_PROFILES) (sent s').
Proof.
  unfold fetch_all. unfold bind at 1.
  destruct (_fetch_profiles w s) as [o1 s1] eqn:E1.
  assert (In (Get API_PROFILES) (sent s1)) as H1.
  { revert E1. unfold _fetch_profiles, bind, session_get.
    destruct (http_get w API_PROFILES) as [|r];
      [|destruct (status r =? 200)];
      intros E; inversion E; subst; cbn;
      apply in_or_app; right; left; reflexivity. }
  destruct o1 as [pd|e].
  - intros E2.
    match type of E2 with ?f s1 = _ => assert (preserved log_grows f) as P end.
    { change _fetch_subscribers with (fun w => fetch_section w Subscribers).
      change _fetch_subscriptions_summary
        with (fun w => fetch_section w SubscriptionsSummary).
      cbv beta. grows.
      intros s2 o2 s2' E; inversion E; subst; apply log_grows_refl. }
    exact (P _ _ _ E2 _ H1).
  - intros E; inversion E; subst. exact H1.
Qed.

(** The flag is never cleared and the identity is only written once the
    flag is set. *)
Lemma identity_guarded_step {A} (m : M A) w s o s' :
  (forall s1 o1 s2, m s1 = (o1, s2) -> self s2 = self s1) ->
  identity_guarded (self s) ->
  (ensure_authenticated w ;;; m) s = (o, s') ->
  identity_guarded (self s').
Proof.
  intros Hm G. unfold bind.
  destruct (ensure_authenticated w s) as [[[]|e] s1] eqn:E1; intros E2.
  - rewrite (Hm _ _ _ E2).
    destruct (ensure_authenticated_self _ _ _ _ E1) as [-> | T];
      [exact G | left; exact T].
  - inversion E2; subst.
    destruct (ensure_authenticated_self _ _ _ _ E1) as [-> | T];
      [exact G | left; exact T].
Qed.

Lemma reachable_identity_guarded a : reachable a -> identity_guarded a.
Proof.
  induction 1 as [u p | w s o s' _ IH E | w s o s' _ IH E
                 | w i s o s' _ IH E | w i s o s' _ IH E].
  - right. split; reflexivity.
  - destruct (authenticate_self _ _ _ _ E) as [-> | T];
      [exact IH | left; exact T].
  - exact (identity_guarded_step _ _ _ _ _ (fetch_all_self w) IH E).
  - exact (identity_guarded_step _ _ _ _ _ (status_or_raise_self w _) IH E).
  - exact (identity_guarded_step _ _ _ _ _ (status_or_raise_self w _) IH E).
Qed.

(** C9 (as amended).  In every state the client object can reach, an
    identity that is not null comes with the authenticated flag set: the
    constructor leaves both unset, no operation clears the flag, and only
    a verified login writes the identity. *)
Theorem identity_implies_authenticated a :
  reachable a -> ~ identity_is_null a -> _authenticated a = true.
Proof.
  intros R N. destruct (reachable_identity_guarded a R) as [T | I].
  - exact T.
  - contradiction.
Qed.

Lemma identity_implies_authenticated_witness :
  _sso_id (self (snd (authenticate welcome_world fresh))) = JInt 12345
  /\ _authenticated (self (snd (authenticate welcome_world fresh))) = true.
Proof.
  split; [reflexivity|].
  apply (identity_implies_authenticated
           (self (snd (authenticate welcome_world fresh)))).
  - apply (reach_authenticate welcome_world fresh
             (fst (authenticate welcome_world fresh))).
    + apply reach_init.
    + apply surjective_pairing.
  - intros [H _]. discriminate H.
Defined.

(** C9 fails as stated: a verification body that reports the user as
    logged in and carries no [currentUser] sets the flag and leaves the
    identity null. *)
Lemma authenticated_without_identity :
  reachable (self (snd (authenticate anonymous_world fresh)))
  /\ _authenticated (self (snd (authenticate anonymous_world fresh))) = true
  /\ identity_is_null (self (snd (authenticate anonymous_world fresh))).
Proof.
  split; [|split; [reflexivity | split; reflexivity]].
  apply (reach_authenticate anonymous_world fresh
           (fst (authenticate anonymous_world fresh))).
  - apply reach_init.
  - apply surjective_pairing.
Qed.

(** ** Aggregator: the authentication step *)

(** C6 (as amended).  For a session that is not authenticated,
    [get_data] first runs [authenticate].  An exception of that step is
    the exception of [get_data], raised before any section is requested.
    A returned value, [False] included, is dropped: [get_data] goes on
    with the fetches as for an authenticated session, and the profiles
    request is sent. *)
Theorem get_data_authentication_step w s :
  _authenticated (self s) = false ->
  (forall e s', authenticate w s = (Raise e, s') ->
     get_data w s = (Raise e, s'))
  /\ (forall b s', authenticate w s = (Ok b, s') ->
        get_data w s = fetch_all w s'
        /\ In (Get API_PROFILES) (sent (snd (get_data w s)))).
Proof.
  intros A. unfold get_data, ensure_authenticated.
  split.
  - intros e s' E. unfold bind. rewrite A. rewrite E. reflexivity.
  - intros b s' E.
    assert ((ensure_authenticated w ;;; fetch_all w) s = fetch_all w s') as G.
    { unfold ensure_authenticated, bind. rewrite A. rewrite E. reflexivity. }
    unfold ensure_authenticated in G. rewrite G. split; [reflexivity|].
    destruct (fetch_all w s') as [o s''] eqn:F.
    exact (fetch_all_log _ _ _ _ F).
Qed.

Lemma get_data_authentication_step_witness :
  get_data unreachable_world fresh
  = (Raise ClientError, send (Get LOGIN_PAGE_URL) fresh).
Proof.
  apply (proj1 (get_data_authentication_step unreachable_world fresh eq_refl)).
  reflexivity.
Defined.

(** C6 fails as stated: the login page answers HTTP 503, [authenticate]
    returns [False], and [get_data] still requests the sections and
    returns a snapshot. *)
Lemma get_data_proceeds_after_refused_login :
  fst (authenticate login_down_world fresh) = Ok false
  /\ _authenticated (self (snd (get_data login_down_world fresh))) = false
  /\ sent (snd (get_data login_down_world fresh))
     = [Get LOGIN_PAGE_URL; Get API_PROFILES; Get API_SUBSCRIBERS;
        Get API_SUBSCRIPTIONS_SUMMARY;
        Get (API_PROFILE_INVOICE_INFO "100000001")]
  /\ exists snap, fst (get_data login_down_world fresh) = Ok snap
                  /\ profiles snap = JList [john_doe].
Proof.
  split; [reflexivity|]. split; [reflexivity|]. split; [reflexivity|].
  eexists. split; reflexivity.
Qed.

(** ** Aggregator: the invoice loop *)

Lemma sends_nil s : sends [] s = s.
Proof. destruct s as [a l]. unfold sends. cbn. rewrite app_nil_r. reflexivity. Qed.

Lemma sends_send q qs s : sends qs (send q s) = sends (q :: qs) s.
Proof. unfold sends, send. cbn. rewrite <- app_assoc. reflexivity. Qed.

Lemma session_get_run w u s :
  session_get w u s
  = (match http_get w u with
     | Transport_error => Raise ClientError
     | Reply r => Ok r
     end, send (Get u) s).
Proof. unfold session_get. destruct (http_get w u); reflexivity. Qed.

Lemma invoice_try_run w p i ub s :
  invoice_try w p i ub s
  = (Ok (invoice_step w p i ub), send (invoice_request w i) s).
Proof.
  unfold invoice_try, invoice_step, invoice_request. rewrite session_get_run.
  destruct (http_get w _) as [|r]; [reflexivity|].
  destruct (invoice_record w p i r) as [[[[k b] rec]|]|e]; reflexivity.
Qed.

Lemma py_get_id d : py_get (JDict d) "id" JNull = Ok (profile_id_of d).
Proof. reflexivity. Qed.

(** Over profile objects the loop never raises; it sends one request per
    truthy id, in order. *)
Lemma unpaid_bills_loop_run w ds : forall ub s,
  unpaid_bills_loop w (map JDict ds) ub s
  = (Ok (bills_fold w ds ub), sends (map (invoice_request w) (fetched_ids ds)) s).
Proof.
  induction ds as [|d ds IH]; intros ub s.
  - cbn. rewrite sends_nil. reflexivity.
  - cbn [map unpaid_bills_loop bills_fold]. unfold bind at 1, lift.
    rewrite py_get_id. unfold fetched_ids. cbn [map filter].
    fold (fetched_ids ds).
    destruct (truthy (profile_id_of d)); cbn [negb].
    + unfold bind. rewrite invoice_try_run. rewrite IH.
      cbn [map]. rewrite sends_send. reflexivity.
    + apply IH.
Qed.

Lemma fetch_unpaid_bills_run w ds s :
  _fetch_unpaid_bills w (JList (map JDict ds)) s
  = (Ok (bills_fold w ds no_unpaid_bills),
     sends (map (invoice_request w) (fetched_ids ds)) s).
Proof.
  unfold _fetch_unpaid_bills, bind, lift. cbn [py_iter].
  apply unpaid_bills_loop_run.
Qed.

(** A loop that returns has only met profile objects. *)
Lemma unpaid_bills_loop_ok w l : forall ub s ub' s',
  unpaid_bills_loop w l ub s = (Ok ub', s') -> exists ds, l = map JDict ds.
Proof.
  induction l as [|p l IH]; intros ub s ub' s'.
  - exists []. reflexivity.
  - cbn [unpaid_bills_loop]. unfold bind at 1, lift.
    destruct p as [| | | | |?|d]; try discriminate.
    rewrite py_get_id.
    destruct (truthy (profile_id_of d)); cbn [negb].
    + unfold bind. rewrite invoice_try_run. intros E.
      destruct (IH _ _ _ _ E) as [ds ->]. exists (d :: ds). reflexivity.
    + intros E. destruct (IH _ _ _ _ E) as [ds ->]. exists (d :: ds). reflexivity.
Qed.


(** ** Aggregator: the shape of a poll cycle *)

Lemma fetch_section_run w sec s :
  fetch_section w sec s = (section_outcome w sec, send (Get (section_url sec)) s).
Proof.
  unfold section_outcome.
  destruct sec; cbn [fetch_section section_url section_empty];
    unfold _fetch_profiles, _fetch_subscribers, _fetch_subscriptions_summary,
      bind; rewrite session_get_run;
    (destruct (http_get w _) as [|r]; [reflexivity|]);
    destruct (status r =? 200); reflexivity.
Qed.

(** A poll cycle that returns a snapshot: the three sections were fetched
    without an exception, the profiles are a sequence of objects, and the
    unpaid bills are those of the invoice loop over them. *)
Lemma fetch_all_ok w s snap s' :
  fetch_all w s = (Ok snap, s') ->
  exists pd sd qd ds,
    section_outcome w Profiles = Ok pd
    /\ section_outcome w Subscribers = Ok sd
    /\ section_outcome w SubscriptionsSummary = Ok qd
    /\ profiles_list_of pd = Ok (profiles snap)
    /\ py_iter (profiles snap) = Ok (map JDict ds)
    /\ unpaid_bills snap = bills_fold w ds no_unpaid_bills
    /\ subscribers snap = (if truthy sd then sd else JList [])
    /\ (if truthy qd then py_get qd "data" (JList []) else Ok (JList []))
       = Ok (subscriptions_summary snap)
    /\ total_unpaid_amount (summary snap) = total_amount (unpaid_bills snap)
    /\ total_unpaid_count (summary snap) = total_count (unpaid_bills snap)
    /\ s' = sends (section_requests ++ map (invoice_request w) (fetched_ids ds)) s.
Proof.
  unfold fetch_all.
  change (_fetch_profiles w) with (fetch_section w Profiles).
  change (_fetch_subscribers w) with (fetch_section w Subscribers).
  change (_fetch_subscriptions_summary w)
    with (fetch_section w SubscriptionsSummary).
  unfold bind at 1. rewrite fetch_section_run.
  destruct (section_outcome w Profiles) as [pd|e] eqn:EP; [|discriminate].
  unfold bind at 1. rewrite fetch_section_run.
  destruct (section_outcome w Subscribers) as [sd|e] eqn:ES; [|discriminate].
  unfold bind at 1. rewrite fetch_section_run.
  destruct (section_outcome w SubscriptionsSummary) as [qd|e] eqn:EQ;
    [|discriminate].
  unfold bind at 1, lift. fold (profiles_list_of pd).
  destruct (profiles_list_of pd) as [pl|e] eqn:EL; [|discriminate].
  unfold bind at 1. unfold _fetch_unpaid_bills at 1. unfold bind at 1, lift.
  destruct (py_iter pl) as [l|e] eqn:I; [|discriminate].
  destruct (unpaid_bills_loop w l no_unpaid_bills _) as [[ub|e] s2] eqn:L;
    [|discriminate].
  destruct (unpaid_bills_loop_ok _ _ _ _ _ _ L) as [ds ->].
  rewrite unpaid_bills_loop_run in L. inversion L; subst ub s2; clear L.
  unfold bind.
  destruct (total_loyalty qd) as [t|e]; [|discriminate].
  unfold assemble. cbn [self sends].
  destruct (user_of _) as [u|e]; [|discriminate]. cbn [obind].
  destruct (if truthy qd then py_get qd "data" (JList []) else Ok (JList []))
    as [ss|e] eqn:ESS; [|discriminate]. cbn [obind].
  destruct (py_len pl) as [n|e]; [|discriminate]. cbn [obind].
  destruct (if truthy sd then py_len sd else Ok 0) as [m|e]; [|discriminate].
  cbn [obind]. intros E. inversion E; subst snap s'; clear E. cbn.
  exists pd, sd, qd, ds.
  repeat split; try reflexivity; try assumption.
  unfold sends, send, section_requests. cbn. f_equal.
  repeat rewrite <- app_assoc. reflexivity.
Qed.

Lemma get_data_ok w s snap s' :
  get_data w s = (Ok snap, s') ->
  exists s1, fetch_all w s1 = (Ok snap, s')
             /\ (s1 = s \/ exists b, authenticate w s = (Ok b, s1)).
Proof.
  unfold get_data, bind at 1, ensure_authenticated.
  destruct (_authenticated (self s)).
  - intros E. exists s. split; [exact E | left; reflexivity].
  - unfold bind at 1, ret.
    destruct (authenticate w s) as [[b|e] s1]; [|discriminate].
    intros E. exists s1. split; [exact E | right; exists b; reflexivity].
Qed.

(** At an element that is not an object the loop stops: [profile.get] is
    outside the [try]. *)
Lemma unpaid_bills_loop_stops w ds x rest : forall ub s,
  is_object x = false ->
  unpaid_bills_loop w (map JDict ds ++ x :: rest) ub s
  = (Raise AttributeError, sends (map (invoice_request w) (fetched_ids ds)) s).
Proof.
  induction ds as [|d ds IH]; intros ub s X.
  - cbn [map app unpaid_bills_loop fetched_ids filter]. rewrite sends_nil.
    destruct x; try discriminate X; reflexivity.
  - cbn [map app unpaid_bills_loop]. unfold bind at 1, lift.
    rewrite py_get_id. unfold fetched_ids. cbn [map filter].
    fold (fetched_ids ds).
    destruct (truthy (profile_id_of d)); cbn [negb].
    + unfold bind. rewrite invoice_try_run. rewrite (IH _ _ X).
      cbn [map]. rewrite sends_send. reflexivity.
    + apply IH, X.
Qed.

(** A section fetch that raises ends the [try] of [get_data] within the
    three section requests. *)
Lemma fetch_all_section_raises w sec e s :
  section_outcome w sec = Raise e ->
  exists e' n,
    fetch_all w s = (Raise e', sends (firstn n section_requests) s).
Proof.
  intros H. unfold fetch_all.
  change (_fetch_profiles w) with (fetch_section w Profiles).
  change (_fetch_subscribers w) with (fetch_section w Subscribers).
  change (_fetch_subscriptions_summary w)
    with (fetch_section w SubscriptionsSummary).
  unfold bind at 1. rewrite fetch_section_run.
  destruct (section_outcome w Profiles) as [pd|e1] eqn:EP.
  2:{ exists e1, 1%nat. reflexivity. }
  unfold bind at 1. rewrite fetch_section_run.
  destruct (section_outcome w Subscribers) as [sd|e2] eqn:ES.
  2:{ exists e2, 2%nat. unfold sends, send. cbn.
      rewrite <- app_assoc. reflexivity. }
  unfold bind at 1. rewrite fetch_section_run.
  destruct (section_outcome w SubscriptionsSummary) as [qd|e3] eqn:EQ.
  2:{ exists e3, 3%nat. unfold sends, send. cbn.
      rewrite <- !app_assoc. reflexivity. }
  destruct sec; congruence.
Qed.

Lemma get_data_run w s :
  get_data w s
  = match ensure_authenticated w s with
    | (Ok _, s1) => fetch_all w s1
    | (Raise e, s1) => (Raise e, s1)
    end.
Proof. reflexivity. Qed.

(** C7 (as amended).  In a poll cycle that returns a snapshot the
    profiles are objects, and the requests sent after the authentication
    step are the three section requests followed by exactly the invoice
    requests of the profiles whose id is truthy, one each, in the order of
    the list: a profile whose id is missing, null, [0], [0.0], [False] or
    empty gets no request.  Over any list of profile objects
    [_fetch_unpaid_bills] returns and sends exactly these requests.  A
    cycle that returns no snapshot can leave listed profiles without a
    request: at an element that is not an object the loop raises
    [AttributeError], having sent the requests of the profiles before it;
    and when a section fetch raises, the cycle raises with no request
    after the authentication step but section requests. *)
Theorem invoice_requests_for_truthy_ids w :
  (forall s snap s',
      get_data w s = (Ok snap, s') ->
      exists ds s1,
        ensure_authenticated w s = (Ok tt, s1)
        /\ py_iter (profiles snap) = Ok (map JDict ds)
        /\ self s' = self s1
        /\ sent s'
           = (sent s1 ++ section_requests
                ++ map (invoice_request w)
                     (filter truthy (map profile_id_of ds)))%list)
  /\ (forall ds s, exists ub,
        _fetch_unpaid_bills w (JList (map JDict ds)) s
        = (Ok ub,
           {| self := self s;
              sent := sent s ++ map (invoice_request w)
                                  (filter truthy (map profile_id_of ds)) |}))
  /\ (forall ds x rest s,
        is_object x = false ->
        _fetch_unpaid_bills w (JList (map JDict ds ++ x :: rest)) s
        = (Raise AttributeError,
           {| self := self s;
              sent := sent s ++ map (invoice_request w)
                                  (filter truthy (map profile_id_of ds)) |}))
  /\ (forall sec e s,
        section_outcome w sec = Raise e ->
        exists e' s',
          get_data w s = (Raise e', s')
          /\ (ensure_authenticated w s = (Raise e', s')
              \/ exists s1 n,
                   ensure_authenticated w s = (Ok tt, s1)
                   /\ self s' = self s1
                   /\ sent s' = (sent s1 ++ firstn n section_requests)%list)).
Proof.
  repeat apply conj.
  - intros s snap s'. rewrite get_data_run.
    destruct (ensure_authenticated w s) as [[[]|e] s1]; [|discriminate].
    intros F.
    destruct (fetch_all_ok _ _ _ _ F)
      as (pd & sd & qd & ds & _ & _ & _ & _ & I & _ & _ & _ & _ & _ & ->).
    exists ds, s1. repeat split; try reflexivity. exact I.
  - intros ds s. rewrite fetch_unpaid_bills_run. eexists. reflexivity.
  - intros ds x rest s X. unfold _fetch_unpaid_bills, bind, lift.
    cbn [py_iter]. apply unpaid_bills_loop_stops, X.
  - intros sec e s H. rewrite get_data_run.
    destruct (ensure_authenticated w s) as [[[]|e0] s1].
    + destruct (fetch_all_section_raises w sec e s1 H) as (e' & n & F).
      exists e', (sends (firstn n section_requests) s1).
      split; [exact F|]. right. exists s1, n. repeat split.
    + exists e0, s1. split; [reflexivity | left; reflexivity].
Qed.

(** C7 fails as stated: a profile whose id is [0] has an id that is not
    null, and the poll cycle sends no invoice request for it. *)
Lemma no_invoice_request_for_id_zero :
  exists snap,
    fst (get_data id_zero_world logged_in) = Ok snap
    /\ profiles snap = JList [JDict [("id", JInt 0); ("name", JStr "John Doe")]]
    /\ sent (snd (get_data id_zero_world logged_in)) = section_requests.
Proof.
  eexists. split; [vm_compute; reflexivity|]. split; reflexivity.
Qed.

(** ** Aggregator: the unpaid-bills mapping *)

Lemma dict_set_in {V} key (rec : V) d k v :
  In (k, v) (dict_set key rec d) -> (k, v) = (key, rec) \/ In (k, v) d.
Proof.
  induction d as [|[k' v'] d IH]; cbn [dict_set].
  - intros [E | []]. left. symmetry. exact E.
  - destruct (String.eqb key k').
    + intros [E | H]; [left; symmetry; exact E | right; right; exact H].
    + intros [E | H]; [right; left; exact E|].
      destruct (IH H) as [E | H']; [left; exact E | right; right; exact H'].
Qed.

Lemma dict_set_key {V} key (rec : V) d : In key (dict_keys (dict_set key rec d)).
Proof.
  induction d as [|[k' v'] d IH]; cbn [dict_set].
  - left. reflexivity.
  - destruct (String.eqb key k'); [left; reflexivity | right; exact IH].
Qed.

Lemma dict_set_keeps {V} key (rec : V) d k :
  In k (dict_keys d) -> In k (dict_keys (dict_set key rec d)).
Proof.
  induction d as [|[k' v'] d IH]; cbn [dict_set dict_keys map fst].
  - intros [].
  - destruct (String.eqb_spec key k') as [->|N].
    + intros [E | H]; [left; exact E | right; exact H].
    + intros [E | H]; [left; exact E | right; exact (IH H)].
Qed.

Lemma dict_set_fresh {V} key (rec : V) d :
  ~ In key (dict_keys d) -> dict_set key rec d = (d ++ [(key, rec)])%list.
Proof.
  induction d as [|[k' v'] d IH]; cbn [dict_set dict_keys map fst app].
  - reflexivity.
  - intros N. destruct (String.eqb_spec key k') as [->|_].
    + exfalso. apply N. left. reflexivity.
    + rewrite IH; [reflexivity|]. intros H. apply N. right. exact H.
Qed.

Lemma by_profile_record_unpaid ub key bal rec :
  by_profile (record_unpaid ub key bal rec) = dict_set key rec (by_profile ub).
Proof.
  unfold record_unpaid. destruct (py_float_add _ _); reflexivity.
Qed.

(** A balance that passes [> 0] was present in the invoice and is no
    default. *)
Lemma positive_balance data bal :
  py_get (JDict data) "totalBalanceAmount" (JFloat 0) = Ok bal ->
  py_gt0 (py_or bal (JFloat 0)) = Ok true ->
  dict_get "totalBalanceAmount" data = Some bal /\ py_or bal (JFloat 0) = bal.
Proof.
  intros E G. cbn [py_get] in E. injection E as E.
  unfold py_or in *. destruct (truthy bal) eqn:T.
  - split; [|reflexivity].
    destruct (dict_get "totalBalanceAmount" data) as [v|];
      [rewrite E; reflexivity|].
    subst bal. vm_compute in T. discriminate T.
  - vm_compute in G. discriminate G.
Qed.

(** What a stored record says about the reply it was made from. *)
Lemma invoice_record_some w p i r key bal rec :
  invoice_record w p i r = Ok (Some (key, bal, rec)) ->
  key = py_str w i /\ amount rec = bal /\ py_gt0 bal = Ok true
  /\ status r = 200
  /\ exists b data,
       body r = Some (JDict b)
       /\ dict_get "data" b = Some (JDict data)
       /\ dict_get "totalBalanceAmount" data = Some bal.
Proof.
  unfold invoice_record, response_json.
  destruct (status r =? 200) eqn:S; [|discriminate].
  destruct (body r) as [j|]; [|discriminate]. cbn [obind].
  destruct j as [| | | | | |b]; try discriminate. cbn [py_get obind].
  destruct (dict_get "data" b) as [data|] eqn:D; [|discriminate].
  destruct (truthy data) eqn:T; cbn [negb]; [|discriminate].
  destruct data as [| | | | | |dd]; try discriminate.
  destruct (py_get (JDict dd) "totalBalanceAmount" (JFloat 0)) as [b0|e] eqn:B;
    [|discriminate]. cbn [obind].
  destruct (py_gt0 (py_or b0 (JFloat 0))) as [[|]|e] eqn:G; try discriminate.
  destruct (positive_balance dd b0 B G) as [HB HO]. rewrite HO in *.
  cbn [obind py_get].
  destruct (if truthy _ then _ else _) as [dstr|e]; [|discriminate].
  cbn [obind].
  destruct (py_get p "name" (JStr "Unknown")) as [name|e]; [|discriminate].
  cbn [obind]. intros E. inversion E; subst; clear E. cbn [amount].
  repeat split; try reflexivity; try assumption.
  - apply Z.eqb_eq. exact S.
  - exists b, dd. repeat split; assumption.
Qed.

Lemma fetched_balance_of_reply w key r b data bal :
  http_get w (API_PROFILE_INVOICE_INFO key) = Reply r ->
  status r = 200 -> body r = Some (JDict b) ->
  dict_get "data" b = Some (JDict data) ->
  dict_get "totalBalanceAmount" data = Some bal ->
  fetched_balance w key = Some bal.
Proof.
  intros H S B D T. unfold fetched_balance, fetched_invoice.
  rewrite H, S, B, D. exact T.
Qed.


Lemma invoice_step_positive w p i ub :
  records_positive w ub -> records_positive w (invoice_step w p i ub).
Proof.
  intros P. unfold invoice_step.
  destruct (http_get w _) as [|r] eqn:H; [exact P|].
  destruct (invoice_record w p i r) as [[[[k b] rec]|]|e] eqn:I; try exact P.
  destruct (invoice_record_some _ _ _ _ _ _ _ I)
    as (-> & A & G & S & bb & data & B & D & T).
  intros key rec'. rewrite by_profile_record_unpaid. intros HI.
  destruct (dict_set_in _ _ _ _ _ HI) as [E | HI'].
  - inversion E; subst key rec'. rewrite A. split; [|exact G].
    exact (fetched_balance_of_reply _ _ _ _ _ _ H S B D T).
  - exact (P _ _ HI').
Qed.

Lemma bills_fold_positive w ds : forall ub,
  records_positive w ub -> records_positive w (bills_fold w ds ub).
Proof.
  induction ds as [|d ds IH]; intros ub P; cbn [bills_fold].
  - exact P.
  - destruct (truthy (profile_id_of d)); apply IH;
      [apply invoice_step_positive|]; exact P.
Qed.

(** C2.  In every snapshot [get_data] returns, each record of
    [by_profile] has an amount for which [amount > 0] holds, and that
    amount is the [totalBalanceAmount] fetched for its key; so no key
    whose fetched balance is missing, null, zero or negative is in the
    mapping. *)
Theorem unpaid_records_strictly_positive w s snap s' :
  get_data w s = (Ok snap, s') ->
  (forall key rec, In (key, rec) (by_profile (unpaid_bills snap)) ->
     py_gt0 (amount rec) = Ok true
     /\ fetched_balance w key = Some (amount rec))
  /\ (forall key,
        fetched_balance w key = None
        \/ fetched_balance w key = Some JNull
        \/ (exists v, fetched_balance w key = Some v /\ py_gt0 v = Ok false) ->
        ~ In key (dict_keys (by_profile (unpaid_bills snap)))).
Proof.
  intros G. destruct (get_data_ok _ _ _ _ G) as (s1 & F & _).
  destruct (fetch_all_ok _ _ _ _ F)
    as (pd & sd & qd & ds & _ & _ & _ & _ & _ & U & _).
  assert (records_positive w (unpaid_bills snap)) as P.
  { rewrite U. apply bills_fold_positive. intros key rec []. }
  split.
  - intros key rec HI. destruct (P key rec HI) as [B Q]. split; assumption.
  - intros key Hbad HI. unfold dict_keys in HI. apply in_map_iff in HI.
    destruct HI as ([k rec] & E & HI). cbn in E. subst k.
    destruct (P key rec HI) as [B Q].
    destruct Hbad as [N | [N | (v & N & Q')]]; rewrite B in N.
    + discriminate N.
    + inversion N as [A]. rewrite A in Q. discriminate Q.
    + inversion N as [A]. rewrite A in Q. rewrite Q in Q'. discriminate Q'.
Qed.

Lemma unpaid_records_strictly_positive_witness :
  exists snap,
    fst (get_data billing_world logged_in) = Ok snap
    /\ by_profile (unpaid_bills snap) = [("100000001", john_doe_bill "2026-02-16")]
    /\ fetched_balance billing_world "2" = Some (JInt 0)
    /\ ~ In "2" (dict_keys (by_profile (unpaid_bills snap))).
Proof.
  eexists. split; [vm_compute; reflexivity|]. split; [reflexivity|].
  split; [reflexivity|].
  refine (proj2 (unpaid_records_strictly_positive billing_world logged_in _
                   (snd (get_data billing_world logged_in)) _) "2" _).
  - exact (surjective_pairing (get_data billing_world logged_in)).
  - right. right. exists (JInt 0). split; reflexivity.
Defined.

Lemma gt0_truthy bal : py_gt0 bal = Ok true -> truthy bal = true.
Proof.
  destruct bal as [|b|z|f| | |]; cbn [py_gt0 truthy]; try discriminate.
  - intros E; injection E as E; exact E.
  - intros E; injection E as L. apply Z.ltb_lt in L.
    apply negb_true_iff, Z.eqb_neq. lia.
  - intros E; injection E as L. apply negb_true_iff.
    rewrite ltb_spec in L. rewrite eqb_spec.
    replace (Prim2SF 0%float) with (S754_zero false) in * by reflexivity.
    destruct (Prim2SF f) as [[|]|[|]| |[|] m e]; cbn in *; congruence.
Qed.

(** A reply with a positive balance and a due date that converts is
    stored. *)
Lemma invoice_record_complete w d i r b data bal :
  status r = 200 -> body r = Some (JDict b) ->
  dict_get "data" b = Some (JDict data) ->
  dict_get "totalBalanceAmount" data = Some bal -> py_gt0 bal = Ok true ->
  due_date_converts w data ->
  exists rec,
    invoice_record w (JDict d) i r = Ok (Some (py_str w i, bal, rec))
    /\ amount rec = bal.
Proof.
  intros S B D T G C. unfold invoice_record, response_json.
  rewrite S, B. cbn [Z.eqb Pos.eqb obind py_get]. rewrite D.
  assert (truthy (JDict data) = true) as TD.
  { destruct data; [discriminate T | reflexivity]. }
  rewrite TD. cbn [negb py_get obind]. rewrite T. cbn [obind].
  unfold py_or. rewrite (gt0_truthy bal G). rewrite G. cbn [obind].
  unfold due_date_converts in C.
  destruct (dict_get "dueDate" data) as [ts|].
  - destruct (truthy ts) eqn:TS.
    + destruct C as [C | [dstr C]]; [discriminate C|]. rewrite C. cbn [obind].
      eexists. split; reflexivity.
    + eexists. split; reflexivity.
  - cbn [truthy obind]. eexists. split; reflexivity.
Qed.

Lemma fetched_invoice_some w key data :
  fetched_invoice w key = Some data ->
  exists r b, http_get w (API_PROFILE_INVOICE_INFO key) = Reply r
              /\ status r = 200 /\ body r = Some (JDict b)
              /\ dict_get "data" b = Some (JDict data).
Proof.
  unfold fetched_invoice.
  destruct (http_get w _) as [|r]; [discriminate|].
  destruct (status r =? 200) eqn:S; [|discriminate].
  destruct (body r) as [[| | | | | |b]|] eqn:B; try discriminate.
  destruct (dict_get "data" b) as [[| | | | | |dd]|] eqn:D; try discriminate.
  intros E; inversion E; subst. exists r, b.
  repeat split; try assumption. apply Z.eqb_eq. exact S.
Qed.

Lemma invoice_step_stores w d i ub data bal :
  fetched_invoice w (py_str w i) = Some data ->
  dict_get "totalBalanceAmount" data = Some bal -> py_gt0 bal = Ok true ->
  due_date_converts w data ->
  In (py_str w i) (dict_keys (by_profile (invoice_step w (JDict d) i ub))).
Proof.
  intros F T G C.
  destruct (fetched_invoice_some _ _ _ F) as (r & b & H & S & B & D).
  destruct (invoice_record_complete w d i r b data bal S B D T G C)
    as (rec & I & _).
  unfold invoice_step. rewrite H, I. rewrite by_profile_record_unpaid.
  apply dict_set_key.
Qed.

Lemma invoice_step_keeps w p i ub k :
  In k (dict_keys (by_profile ub)) ->
  In k (dict_keys (by_profile (invoice_step w p i ub))).
Proof.
  intros H. unfold invoice_step.
  destruct (http_get w _) as [|r]; [exact H|].
  destruct (invoice_record w p i r) as [[[[key b] rec]|]|e]; try exact H.
  rewrite by_profile_record_unpaid. apply dict_set_keeps. exact H.
Qed.

Lemma bills_fold_keeps w ds : forall ub k,
  In k (dict_keys (by_profile ub)) ->
  In k (dict_keys (by_profile (bills_fold w ds ub))).
Proof.
  induction ds as [|d ds IH]; intros ub k H; cbn [bills_fold].
  - exact H.
  - destruct (truthy (profile_id_of d)); apply IH;
      [apply invoice_step_keeps|]; exact H.
Qed.

(** A request that brings no invoice object leaves [unpaid_bills] as it
    was. *)
Lemma invoice_step_failed w p i ub :
  fetched_invoice w (py_str w i) = None -> invoice_step w p i ub = ub.
Proof.
  intros F. unfold invoice_step.
  destruct (http_get w _) as [|r] eqn:H; [reflexivity|].
  destruct (invoice_record w p i r) as [[[[key b] rec]|]|e] eqn:I;
    try reflexivity.
  destruct (invoice_record_some _ _ _ _ _ _ _ I)
    as (_ & _ & _ & S & bb & data & B & D & _).
  unfold fetched_invoice in F. rewrite H, S, B, D in F. discriminate F.
Qed.

Lemma bills_fold_app w ds1 ds2 ub :
  bills_fold w (ds1 ++ ds2) ub = bills_fold w ds2 (bills_fold w ds1 ub).
Proof.
  revert ub. induction ds1 as [|d ds1 IH]; intros ub; cbn [bills_fold app].
  - reflexivity.
  - destruct (truthy (profile_id_of d)); apply IH.
Qed.

(** C4 (as amended).  Over profile objects the invoice loop never raises,
    whatever the replies.  A profile whose request brings no invoice
    object (transport error, status other than 200, undecodable body, no
    [data]) changes nothing: the result is that of the list without it.
    Every profile with a truthy id whose invoice was fetched with a
    balance that passes [> 0], and whose due date is missing, falsy or
    converts to a date, has its key in [by_profile]. *)
Theorem invoice_failures_are_isolated w :
  (forall ds s, exists ub,
      fst (_fetch_unpaid_bills w (JList (map JDict ds)) s) = Ok ub
      /\ forall d data bal,
           In d ds -> truthy (profile_id_of d) = true ->
           fetched_invoice w (py_str w (profile_id_of d)) = Some data ->
           dict_get "totalBalanceAmount" data = Some bal ->
           py_gt0 bal = Ok true ->
           due_date_converts w data ->
           In (py_str w (profile_id_of d)) (dict_keys (by_profile ub)))
  /\ (forall ds1 d ds2 s,
        fetched_invoice w (py_str w (profile_id_of d)) = None ->
        fst (_fetch_unpaid_bills w (JList (map JDict (ds1 ++ d :: ds2))) s)
        = fst (_fetch_unpaid_bills w (JList (map JDict (ds1 ++ ds2))) s)).
Proof.
  split.
  - intros ds s. rewrite fetch_unpaid_bills_run. eexists. split; [reflexivity|].
    generalize no_unpaid_bills as ub. induction ds as [|d0 ds IH]; intros ub.
    + intros d data bal [].
    + intros d data bal [<- | HI] TI F T G C; cbn [bills_fold].
      * rewrite TI. apply bills_fold_keeps.
        exact (invoice_step_stores w d0 _ ub data bal F T G C).
      * destruct (truthy (profile_id_of d0));
          exact (IH _ d data bal HI TI F T G C).
  - intros ds1 d ds2 s F. rewrite !fetch_unpaid_bills_run. cbn [fst]. f_equal.
    rewrite !bills_fold_app. cbn [bills_fold].
    rewrite (invoice_step_failed w _ _ _ F).
    destruct (truthy (profile_id_of d)); reflexivity.
Qed.

(** C4 fails as stated: the request for profile 1 fails; the invoice of
    profile 2 is fetched with the positive balance 10, and its due date,
    a string, makes the conversion raise: profile 2 is skipped as well. *)
Lemma positive_balance_without_record :
  fetched_balance bad_due_date_world "2" = Some (JInt 10)
  /\ fst (_fetch_unpaid_bills bad_due_date_world
            (JList [JDict profile_1; JDict profile_2]) fresh)
     = Ok no_unpaid_bills.
Proof. split; reflexivity. Qed.

(** The three ways the request for profile 1 can fail leave the entry of
    profile 2 in place. *)
Example one_failure_keeps_the_other :
  forall failure,
    In failure [Transport_error; failed 500 ""; ok200 "" (JStr "maintenance")] ->
    exists ub,
      fst (_fetch_unpaid_bills (one_fails_world failure)
             (JList [JDict profile_1; JDict profile_2]) fresh) = Ok ub
      /\ dict_keys (by_profile ub) = ["2"]
      /\ total_count ub = 1
      /\ total_amount ub = 10%float.
Proof.
  intros failure [<- | [<- | [<- | []]]];
    (eexists; split; [vm_compute; reflexivity|]; vm_compute; repeat split).
Qed.

(** *** Totals *)

Lemma float_sum_app xs ys : forall acc,
  float_sum acc (xs ++ ys) = obind (float_sum acc xs) (fun t => float_sum t ys).
Proof.
  induction xs as [|x xs IH]; intros acc; cbn [float_sum app obind].
  - reflexivity.
  - destruct (py_float_add acc x) as [acc'|e]; cbn [obind]; [apply IH|reflexivity].
Qed.

Lemma amounts_snoc ub key bal rec :
  ~ In key (dict_keys (by_profile ub)) ->
  amounts (record_unpaid ub key bal rec) = (amounts ub ++ [amount rec])%list
  /\ List.length (by_profile (record_unpaid ub key bal rec))
     = S (List.length (by_profile ub)).
Proof.
  intros N. unfold amounts, dict_values. rewrite by_profile_record_unpaid.
  rewrite (dict_set_fresh _ _ _ N). rewrite !map_app, length_app. cbn.
  split; [reflexivity | lia].
Qed.

Lemma record_unpaid_tallied ub key rec :
  ~ In key (dict_keys (by_profile ub)) ->
  tallied ub -> tallied (record_unpaid ub key (amount rec) rec).
Proof.
  intros N Tal t.
  destruct (amounts_snoc ub key (amount rec) rec N) as [-> ->].
  rewrite float_sum_app.
  destruct (float_sum 0%float (amounts ub)) as [t0|e] eqn:S0; [|discriminate].
  destruct (Tal t0 S0) as [TA TC]. cbn [obind float_sum].
  unfold record_unpaid. rewrite TA.
  destruct (py_float_add t0 (amount rec)) as [t1|e]; [|discriminate].
  cbn [obind total_amount total_count]. intros E; injection E as <-.
  split; [reflexivity | lia].
Qed.

Lemma invoice_step_tallied w p i ub :
  ~ In (py_str w i) (dict_keys (by_profile ub)) ->
  tallied ub -> tallied (invoice_step w p i ub).
Proof.
  intros N Tal. unfold invoice_step.
  destruct (http_get w _) as [|r]; [exact Tal|].
  destruct (invoice_record w p i r) as [[[[key b] rec]|]|e] eqn:I; try exact Tal.
  destruct (invoice_record_some _ _ _ _ _ _ _ I) as (-> & <- & _).
  apply record_unpaid_tallied; assumption.
Qed.

Lemma invoice_step_keys w p i ub k :
  In k (dict_keys (by_profile (invoice_step w p i ub))) ->
  k = py_str w i \/ In k (dict_keys (by_profile ub)).
Proof.
  unfold invoice_step.
  destruct (http_get w _) as [|r]; [right; assumption|].
  destruct (invoice_record w p i r) as [[[[key b] rec]|]|e] eqn:I;
    try (right; assumption).
  destruct (invoice_record_some _ _ _ _ _ _ _ I) as (-> & _).
  rewrite by_profile_record_unpaid. unfold dict_keys. intros H.
  apply in_map_iff in H. destruct H as ([k' v] & <- & H).
  destruct (dict_set_in _ _ _ _ _ H) as [E | H'].
  - left. inversion E. reflexivity.
  - right. apply in_map_iff. exists (k', v). split; [reflexivity | exact H'].
Qed.

Lemma bills_fold_tallied w ds : forall ub,
  NoDup (map (py_str w) (fetched_ids ds)) ->
  (forall k, In k (dict_keys (by_profile ub)) ->
             ~ In k (map (py_str w) (fetched_ids ds))) ->
  tallied ub -> tallied (bills_fold w ds ub).
Proof.
  induction ds as [|d ds IH]; intros ub ND Fresh Tal; cbn [bills_fold].
  - exact Tal.
  - unfold fetched_ids in *. cbn [map filter] in ND, Fresh.
    destruct (truthy (profile_id_of d)).
    + cbn [map] in ND, Fresh. inversion ND as [|k l NI ND']; subst.
      apply IH.
      * exact ND'.
      * intros k HK HI.
        destruct (invoice_step_keys _ _ _ _ _ HK) as [-> | HK'].
        -- exact (NI HI).
        -- apply (Fresh k HK'). right. exact HI.
      * apply invoice_step_tallied; [|exact Tal].
        intros HK. apply (Fresh _ HK). left. reflexivity.
    + apply IH; assumption.
Qed.

Lemma profile_keys_dicts w pl ds :
  py_iter pl = Ok (map JDict ds) ->
  profile_keys w pl = map (py_str w) (fetched_ids ds).
Proof.
  intros I. unfold profile_keys, fetched_ids. rewrite I.
  rewrite map_map. reflexivity.
Qed.

(** C3 (as amended).  In a snapshot [get_data] returns, provided no two
    profiles with a truthy id render to the same key, and the amounts of
    [by_profile] can be summed in float arithmetic (none is an integer
    beyond the range of a double): [summary.total_unpaid_amount] is the
    float sum of the amounts, taken from [0.0] in the order of the
    mapping, and [summary.total_unpaid_count] is the number of its
    entries. *)
Theorem unpaid_totals_match_mapping w s snap s' t :
  get_data w s = (Ok snap, s') ->
  NoDup (profile_keys w (profiles snap)) ->
  float_sum 0%float (amounts (unpaid_bills snap)) = Ok t ->
  total_unpaid_amount (summary snap) = t
  /\ total_unpaid_count (summary snap)
     = Z.of_nat (List.length (by_profile (unpaid_bills snap))).
Proof.
  intros G ND FS. destruct (get_data_ok _ _ _ _ G) as (s1 & F & _).
  destruct (fetch_all_ok _ _ _ _ F)
    as (pd & sd & qd & ds & _ & _ & _ & _ & I & U & _ & _ & TA & TC & _).
  rewrite TA, TC. rewrite (profile_keys_dicts _ _ _ I) in ND.
  assert (tallied (unpaid_bills snap)) as Tal.
  { rewrite U. apply bills_fold_tallied.
    - exact ND.
    - intros k [].
    - intros t0 E. cbn in E. injection E as <-. split; reflexivity. }
  exact (Tal t FS).
Qed.

Lemma unpaid_totals_match_mapping_witness :
  exists snap,
    fst (get_data billing_world logged_in) = Ok snap
    /\ total_unpaid_amount (summary snap) = 129.41%float
    /\ total_unpaid_count (summary snap) = 1.
Proof.
  eexists. split; [vm_compute; reflexivity|].
  refine (unpaid_totals_match_mapping billing_world logged_in _
            (snd (get_data billing_world logged_in)) _ _ _ _).
  - exact (surjective_pairing (get_data billing_world logged_in)).
  - vm_compute. constructor; [intros [H | []]; discriminate H|].
    constructor; [intros []|]. constructor.
  - vm_compute. reflexivity.
Defined.

(** C3 fails as stated: with John Doe listed twice the mapping has one
    entry, of amount 129.41, and the summary counts 2 unpaid bills for a
    total of 258.82. *)
Lemma totals_count_a_profile_twice :
  exists snap,
    fst (get_data listed_twice_world logged_in) = Ok snap
    /\ List.length (by_profile (unpaid_bills snap)) = 1%nat
    /\ float_sum 0%float (amounts (unpaid_bills snap)) = Ok 129.41%float
    /\ total_unpaid_count (summary snap) = 2
    /\ total_unpaid_amount (summary snap) = 258.82%float.
Proof.
  eexists. split; [vm_compute; reflexivity|]. vm_compute. repeat split.
Qed.

(** A balance too large for a double is stored and never counted. *)
Lemma huge_balance_is_not_counted :
  exists snap,
    fst (get_data huge_balance_world logged_in) = Ok snap
    /\ List.length (by_profile (unpaid_bills snap)) = 1%nat
    /\ total_unpaid_count (summary snap) = 0
    /\ total_unpaid_amount (summary snap) = 0%float.
Proof.
  eexists. split; [vm_compute; reflexivity|]. vm_compute. repeat split.
Qed.

(** *** The worked example *)

(** Epoch second 1771200000 is 2026-02-16 00:00:00 UTC; the local days
    from three days before it to one day after it are in 2026. *)
Lemma year_of_example ls :
  1771200000 - 259200 <= ls < 1771200000 + 86400 -> year_of ls = 2026.
Proof.
  intros R. unfold year_of.
  assert (20497 <= ls / 86400 <= 20500) as D.
  { split; [apply Z.div_le_lower_bound | apply Z.lt_succ_r, Z.div_lt_upper_bound];
      lia. }
  assert (ls / 86400 = 20497 \/ ls / 86400 = 20498
          \/ ls / 86400 = 20499 \/ ls / 86400 = 20500) as [E|[E|[E|E]]] by lia;
    rewrite E; reflexivity.
Qed.

Lemma local_near_example w t :
  zone_within_a_day w 1771200000 ->
  1771200000 - 172800 <= t <= 1771200000 ->
  local w t = Ok (t + utc_offset w t).
Proof.
  intros W R. unfold local, local_seconds.
  rewrite year_of_example by (specialize (W t R); lia). reflexivity.
Qed.

Lemma strftime_of_example pads off :
  -86400 <= off < 86400 ->
  strftime_Ymd pads (civil_from_days ((1771200000 + off) / 86400))
  = if off <? 0 then "2026-02-15" else "2026-02-16".
Proof.
  intros R. destruct (Z.ltb_spec off 0) as [N | P].
  - replace ((1771200000 + off) / 86400) with 20499
      by (apply Z.div_unique with (r := off + 86400); lia).
    destruct pads; reflexivity.
  - replace ((1771200000 + off) / 86400) with 20500
      by (apply Z.div_unique with (r := off); lia).
    destruct pads; reflexivity.
Qed.

Lemma local_date_of_example w off :
  utc_offset w 1771200000 = off -> zone_within_a_day w 1771200000 ->
  local_date w 1771200000
  = Ok (if off <? 0 then "2026-02-15" else "2026-02-16").
Proof.
  intros H W. unfold local_date.
  assert (-86400 <= off < 86400) as R by (rewrite <- H; apply W; lia).
  assert (-86400 <= utc_offset w (1771200000 - 86400) < 86400) as R1
    by (apply W; lia).
  rewrite (local_near_example w 1771200000 W) by lia.
  rewrite (local_near_example w (1771200000 - 86400) W) by lia.
  cbn [obind]. cbv zeta. rewrite H.
  set (transition := 1771200000 + off
                     - (1771200000 - 86400 + utc_offset w (1771200000 - 86400))
                     - 86400).
  assert (-172800 < transition < 172800) as RT by (unfold transition; lia).
  destruct (Z.ltb_spec transition 0) as [N|P].
  - rewrite (local_near_example w (1771200000 + transition) W) by lia.
    cbn [obind]. f_equal. apply strftime_of_example, R.
  - cbn [obind]. f_equal. apply strftime_of_example, R.
Qed.

(** C8 (as amended).  For the profile [{id: 100000001, name: "John Doe"}]
    whose invoice request answers HTTP 200 with the invoice data
    [{totalBalanceAmount: 129.41, dueDate: 1771200000000}], the mapping
    has the single key ["100000001"], with amount 129.41, and the total
    amount is 129.41; the due date is the local calendar date of
    2026-02-16 00:00 UTC: ["2026-02-16"] in a zone at or east of UTC,
    ["2026-02-15"] in a zone west of UTC.  The zone is any whose offset,
    at the instants the conversion reads, is less than a day. *)
Theorem john_doe_unpaid_bill w s u off :
  http_get w (API_PROFILE_INVOICE_INFO "100000001") = ok200 u john_doe_invoice ->
  utc_offset w 1771200000 = off -> zone_within_a_day w 1771200000 ->
  fst (_fetch_unpaid_bills w (JList [john_doe]) s)
  = Ok {| total_amount := 129.41;
          total_count := 1;
          by_profile :=
            [("100000001",
              john_doe_bill (if off <? 0 then "2026-02-15" else "2026-02-16"))] |}.
Proof.
  intros H O R.
  change (JList [john_doe])
    with (JList (map JDict [[("id", JInt 100000001); ("name", JStr "John Doe")]])).
  rewrite fetch_unpaid_bills_run. cbn [fst]. f_equal.
  cbn [bills_fold].
  change (profile_id_of _) with (JInt 100000001).
  change (truthy (JInt 100000001)) with true. cbv iota.
  unfold invoice_step.
  change (py_str w (JInt 100000001)) with "100000001".
  rewrite H. unfold invoice_record, ok200, john_doe_invoice.
  cbn [status body response_json Z.eqb Pos.eqb obind py_get dict_get
       String.eqb Ascii.eqb Bool.eqb truthy negb].
  change (py_or (JFloat 129.41) (JFloat 0)) with (JFloat 129.41).
  change (py_gt0 (JFloat 129.41)) with (@Ok bool true). cbn [obind].
  change (negb (1771200000000 =? 0)) with true. cbv iota.
  unfold fromtimestamp_date, epoch_seconds. cbn [obind].
  change (1771200000000 / 1000) with 1771200000.
  rewrite (local_date_of_example w off O R). cbn [obind].
  change (py_str w (JInt 100000001)) with "100000001".
  reflexivity.
Qed.

Lemma john_doe_unpaid_bill_witness :
  fst (_fetch_unpaid_bills (john_doe_world (-18000)) (JList [john_doe]) fresh)
  = Ok {| total_amount := 129.41;
          total_count := 1;
          by_profile := [("100000001", john_doe_bill "2026-02-15")] |}.
Proof.
  apply (john_doe_unpaid_bill (john_doe_world (-18000)) fresh "" (-18000));
    [reflexivity | reflexivity | intros t' _; simpl; lia].
Defined.

(** C8 fails as stated: where the local zone is UTC, and where it is
    Romania's (two hours east of UTC in February), the due date of the
    example is 2026-02-16. *)
Lemma john_doe_due_date_in_utc :
  fst (_fetch_unpaid_bills (john_doe_world 0) (JList [john_doe]) fresh)
  = Ok {| total_amount := 129.41;
          total_count := 1;
          by_profile := [("100000001", john_doe_bill "2026-02-16")] |}
  /\ fst (_fetch_unpaid_bills (john_doe_world 7200) (JList [john_doe]) fresh)
     = Ok {| total_amount := 129.41;
             total_count := 1;
             by_profile := [("100000001", john_doe_bill "2026-02-16")] |}.
Proof. split; vm_compute; reflexivity. Qed.

(** ** Aggregator: section failures *)


Lemma section_outcome_degraded w sec r :
  http_get w (section_url sec) = Reply r -> status r <> 200 ->
  section_outcome w sec = Ok (section_empty sec).
Proof.
  intros H N. unfold section_outcome. rewrite H.
  apply Z.eqb_neq in N. rewrite N. reflexivity.
Qed.













(** * Further properties *)

(** ** The login *)

Lemma is_user_logged_true d data v :
  dict_get "data" d = Some (JDict data) ->
  dict_get "isUserLogged" data = Some v -> truthy v = true ->
  is_user_logged (JDict d) = Ok true.
Proof.
  intros D F T. unfold is_user_logged.
  assert (truthy (JDict d) = true) as -> by (destruct d; [discriminate D | reflexivity]).
  cbn [py_get obind]. rewrite D. cbn [py_get obind]. rewrite F, T. reflexivity.
Qed.

(** The run of [authenticate] up to the verification body, when the
    portal reports the user as logged in. *)
Lemma authenticate_logged w s r1 data :
  verified w s r1 data ->
  authenticate w s
  = (data' <- lift (Ok (JDict data)) ;;
     current_user <- lift (py_get data' "currentUser" (JDict [])) ;;
     sso_id <- lift (py_get current_user "ssoId" JNull) ;;
     (fun s => (Ok tt, set_identity sso_id current_user s)) ;;;
     ret true)
      (set_authenticated (sends (login_requests (self s) (url r1)) s)).
Proof.
  intros (H1 & E1 & (r2 & H2 & E2) & (r3 & d & H3 & E3 & B3 & D) & (v & F & T)).
  unfold authenticate, bind at 1, session_get. rewrite H1, E1.
  cbn [negb Z.eqb Pos.eqb]. cbv zeta.
  unfold bind at 1, session_post. cbn [send self]. rewrite H2, E2.
  cbn [negb Z.eqb Pos.eqb].
  unfold bind at 1, _fetch_user_data, bind at 1, session_get. rewrite H3, E3.
  cbn [Z.eqb Pos.eqb]. unfold lift at 1, response_json. rewrite B3.
  unfold bind at 1, lift at 1. rewrite (is_user_logged_true d data v D F T).
  unfold bind at 1. unfold bind at 1, lift at 1. cbn [py_get]. rewrite D.
  unfold bind at 3, lift at 3.
  unfold set_authenticated, sends, send, login_requests. cbn [self sent].
  repeat rewrite <- app_assoc. reflexivity.
Qed.

(** X1.  A verified login returns [True], sets the flag, stores the
    [currentUser] object as the identity with its [ssoId] (an empty
    identity when [currentUser] is missing), keeps the credentials, and
    has sent three requests: the login page, the credential POST to the
    URL the page redirected to, and the verification request. *)
Theorem authenticate_verified w s r1 data cu :
  verified w s r1 data ->
  dict_get "currentUser" data = Some (JDict cu)
  \/ (dict_get "currentUser" data = None /\ cu = []) ->
  authenticate w s
  = (Ok true,
     {| self := signed_in (self s) cu;
        sent := sent s ++ login_requests (self s) (url r1) |}).
Proof.
  intros V C. rewrite (authenticate_logged w s r1 data V).
  unfold bind at 1, lift at 1. unfold bind at 1, lift at 1. cbn [py_get].
  assert (match dict_get "currentUser" data with
          | Some v => v
          | None => JDict []
          end = JDict cu) as ->.
  { destruct C as [-> | [-> ->]]; reflexivity. }
  unfold bind at 1, lift at 1. cbn [py_get]. unfold bind, ret.
  reflexivity.
Qed.

Lemma authenticate_verified_witness :
  authenticate welcome_world fresh
  = (Ok true,
     {| self := signed_in (self fresh)
                  [("ssoId", JInt 12345); ("username", JStr "user")];
        sent := sent fresh ++ login_requests (self fresh) login_url |}).
Proof.
  apply (authenticate_verified welcome_world fresh
           {| status := 200; url := login_url; body := Some JNull |}
           [("isUserLogged", JBool true);
            ("currentUser", JDict [("ssoId", JInt 12345);
                                   ("username", JStr "user")])]).
  - split; [reflexivity|]. split; [reflexivity|].
    split; [eexists; split; reflexivity|].
    split; [do 2 eexists; repeat split; reflexivity|].
    eexists; split; reflexivity.
  - left. reflexivity.
Defined.

(** X3.  When the portal reports the user as logged in and [currentUser]
    is present without being an object, [authenticate] raises
    [AttributeError] after it has set the flag: the session is left
    authenticated, with the identity it had before. *)
Theorem authenticate_flag_set_before_identity w s r1 data v :
  verified w s r1 data ->
  dict_get "currentUser" data = Some v ->
  (forall cu, v <> JDict cu) ->
  authenticate w s
  = (Raise AttributeError,
     {| self := flagged (self s);
        sent := sent s ++ login_requests (self s) (url r1) |}).
Proof.
  intros V C N. rewrite (authenticate_logged w s r1 data V).
  unfold bind at 1, lift at 1. unfold bind at 1, lift at 1. cbn [py_get].
  rewrite C. unfold bind at 1, lift at 1.
  destruct v as [| | | | | |cu]; try reflexivity.
  exfalso. exact (N cu eq_refl).
Qed.

Lemma authenticate_flag_set_before_identity_witness :
  authenticate null_user_world fresh
  = (Raise AttributeError,
     {| self := flagged (self fresh);
        sent := sent fresh ++ login_requests (self fresh) login_url |}).
Proof.
  apply (authenticate_flag_set_before_identity null_user_world fresh
           {| status := 200; url := login_url; body := Some JNull |}
           [("isUserLogged", JBool true); ("currentUser", JNull)] JNull).
  - split; [reflexivity|]. split; [reflexivity|].
    split; [eexists; split; reflexivity|].
    split; [do 2 eexists; repeat split; reflexivity|].
    eexists; split; reflexivity.
  - reflexivity.
  - intros cu H. discriminate H.
Defined.

(** X2.  A transport error at any of the three requests of a login makes
    [authenticate] raise [ClientError] (it does not return [False]), and
    leaves the client object as it was. *)
Theorem authenticate_transport_error w s :
  transport_fails w s ->
  exists s', authenticate w s = (Raise ClientError, s') /\ self s' = self s.
Proof.
  intros [H1 | r1 H1 E1 H2 | r1 r2 H1 E1 H2 E2 H3];
    unfold authenticate, bind, session_get, session_post, _fetch_user_data,
      bind, session_get.
  - rewrite H1. eexists. split; reflexivity.
  - rewrite H1, E1. cbn [send self negb Z.eqb Pos.eqb]. rewrite H2.
    eexists. split; reflexivity.
  - rewrite H1, E1. cbn [send self negb Z.eqb Pos.eqb]. rewrite H2, E2.
    cbn [send self negb Z.eqb Pos.eqb]. rewrite H3.
    eexists. split; reflexivity.
Qed.

Lemma authenticate_transport_error_witness :
  exists s', authenticate post_unreachable_world fresh = (Raise ClientError, s')
             /\ self s' = self fresh.
Proof.
  apply (authenticate_transport_error post_unreachable_world fresh).
  eapply post_unreachable; reflexivity.
Defined.

(** ** What no operation does *)

Lemma session_kept_refl a : session_kept a a.
Proof. repeat split. intros H; exact H. Qed.

Lemma session_kept_trans a b c :
  session_kept a b -> session_kept b c -> session_kept a c.
Proof.
  intros (U1 & P1 & F1) (U2 & P2 & F2). repeat split; try congruence.
  intros H. apply F2, F1, H.
Qed.

Lemma authenticate_session_kept w s o s' :
  authenticate w s = (o, s') -> session_kept (self s) (self s').
Proof.
  unfold authenticate, bind, session_get, session_post, _fetch_user_data,
    bind, session_get, lift, raise, ret.
  destruct (http_get w LOGIN_PAGE_URL) as [|r1];
    [intros E; inversion E; apply session_kept_refl|].
  destruct (status r1 =? 200); cbn [negb];
    [|intros E; inversion E; apply session_kept_refl].
  cbn [send self].
  destruct (http_post w (url r1) _ _) as [|r2];
    [intros E; inversion E; apply session_kept_refl|].
  destruct (status r2 =? 200); cbn [negb];
    [|intros E; inversion E; apply session_kept_refl].
  cbn [send self].
  destruct (http_get w API_USER_DATA) as [|r3];
    [intros E; inversion E; apply session_kept_refl|].
  destruct (status r3 =? 200);
    [|intros E; inversion E; apply session_kept_refl].
  destruct (response_json r3) as [user_data|e];
    [|intros E; inversion E; apply session_kept_refl].
  destruct (is_user_logged user_data) as [[|]|e];
    try (intros E; inversion E; apply session_kept_refl).
  destruct (py_get user_data "data" (JDict [])) as [data|e];
    [|intros E; inversion E; repeat split].
  destruct (py_get data "currentUser" (JDict [])) as [cu|e];
    [|intros E; inversion E; repeat split].
  destruct (py_get cu "ssoId" JNull) as [sso|e];
    intros E; inversion E; repeat split.
Qed.

Lemma ensure_authenticated_session_kept w s o s' :
  ensure_authenticated w s = (o, s') -> session_kept (self s) (self s').
Proof.
  unfold ensure_authenticated, bind, ret.
  destruct (_authenticated (self s)).
  - intros E; inversion E; apply session_kept_refl.
  - destruct (authenticate w s) as [[b|e] s1] eqn:A;
      intros E; inversion E; subst; exact (authenticate_session_kept w s _ _ A).
Qed.

Lemma ensured_session_kept {A} (m : M A) w s o s' :
  (forall s1 o1 s2, m s1 = (o1, s2) -> self s2 = self s1) ->
  (ensure_authenticated w ;;; m) s = (o, s') ->
  session_kept (self s) (self s').
Proof.
  intros Hm. unfold bind.
  destruct (ensure_authenticated w s) as [[[]|e] s1] eqn:E1; intros E2.
  - rewrite (Hm _ _ _ E2). exact (ensure_authenticated_session_kept _ _ _ _ E1).
  - inversion E2; subst. exact (ensure_authenticated_session_kept _ _ _ _ E1).
Qed.

(** X4.  No public operation of the client changes the stored
    credentials, and none clears the authenticated flag: once set, it
    stays set, whether the operation returns or raises. *)
Theorem operations_keep_session s s' :
  operation s s' -> session_kept (self s) (self s').
Proof.
  intros [w s0 o s1 E | w s0 o s1 E | w i s0 o s1 E | w i s0 o s1 E].
  - exact (authenticate_session_kept _ _ _ _ E).
  - exact (ensured_session_kept _ _ _ _ _ (fetch_all_self w) E).
  - exact (ensured_session_kept _ _ _ _ _ (status_or_raise_self w _) E).
  - exact (ensured_session_kept _ _ _ _ _ (status_or_raise_self w _) E).
Qed.

Lemma operations_keep_session_witness :
  session_kept (self fresh) (self (snd (get_data welcome_world fresh)))
  /\ _authenticated (self (snd (get_data welcome_world fresh))) = true.
Proof.
  split; [|reflexivity].
  apply (operations_keep_session fresh (snd (get_data welcome_world fresh))).
  apply (op_get_data welcome_world fresh (fst (get_data welcome_world fresh))).
  apply surjective_pairing.
Defined.

(** *** An authenticated session only sends GET requests *)

Section Gets.
Variable R : Run -> Run -> Prop.
Hypothesis R_refl : forall s, R s s.
Hypothesis R_trans : forall s1 s2 s3, R s1 s2 -> R s2 s3 -> R s1 s3.
Hypothesis R_get : forall u s, R s (send (Get u) s).

Lemma gets_pure {A} (x : outcome A) : preserved R (lift x).
Proof. intros s o s' E; inversion E; subst; apply R_refl. Qed.

Lemma gets_get w u : preserved R (session_get w u).
Proof.
  intros s o s'. unfold session_get.
  destruct (http_get w u); intros E; inversion E; subst; apply R_get.
Qed.

Lemma gets_bind {A B} (m : M A) (k : A -> M B) :
  preserved R m -> (forall a, preserved R (k a)) -> preserved R (bind m k).
Proof.
  intros Hm Hk s o s'. unfold bind.
  destruct (m s) as [[a|e] s1] eqn:E1; intros E2.
  - exact (R_trans _ _ _ (Hm _ _ _ E1) (Hk a _ _ _ E2)).
  - inversion E2; subst. exact (Hm _ _ _ E1).
Qed.

Lemma gets_status_or w u (k : response -> M json) :
  (forall r, preserved R (k r)) ->
  preserved R (r <- session_get w u ;;
               if status r =? 200 then lift (response_json r) else k r).
Proof.
  intros Hk. apply gets_bind; [apply gets_get|]. intros r.
  destruct (status r =? 200); [apply gets_pure | apply Hk].
Qed.

Lemma gets_invoice_try w p i ub : preserved R (invoice_try w p i ub).
Proof.
  intros s o s'. rewrite invoice_try_run. intros E; inversion E; subst.
  apply R_get.
Qed.

Lemma gets_loop w l : forall ub, preserved R (unpaid_bills_loop w l ub).
Proof.
  induction l as [|p l IH]; intros ub; cbn [unpaid_bills_loop].
  - apply (gets_pure (Ok ub)).
  - apply gets_bind; [apply gets_pure|]. intros i.
    destruct (negb (truthy i)); [apply IH|].
    apply gets_bind; [apply gets_invoice_try | intros ub'; apply IH].
Qed.

Lemma gets_fetch_all w : preserved R (fetch_all w).
Proof.
  unfold fetch_all, _fetch_profiles, _fetch_subscribers,
    _fetch_subscriptions_summary.
  apply gets_bind; [apply gets_status_or; intros r; apply (gets_pure (Ok _))|].
  intros pd.
  apply gets_bind; [apply gets_status_or; intros r; apply (gets_pure (Ok _))|].
  intros sd.
  apply gets_bind; [apply gets_status_or; intros r; apply (gets_pure (Ok _))|].
  intros qd.
  apply gets_bind; [apply gets_pure|]. intros pl.
  apply gets_bind.
  { apply gets_bind; [apply gets_pure | intros l; apply gets_loop]. }
  intros ub. apply gets_bind; [apply gets_pure|]. intros t.
  intros s o s' E; inversion E; subst; apply R_refl.
Qed.
End Gets.

Lemma only_gets_refl s : only_gets s s.
Proof.
  split; [reflexivity|]. exists []. split; [symmetry; apply app_nil_r | constructor].
Qed.

Lemma only_gets_trans s1 s2 s3 :
  only_gets s1 s2 -> only_gets s2 s3 -> only_gets s1 s3.
Proof.
  intros (S1 & l1 & L1 & F1) (S2 & l2 & L2 & F2). split; [congruence|].
  exists (l1 ++ l2)%list. split.
  - rewrite L2, L1, app_assoc. reflexivity.
  - apply Forall_app. split; assumption.
Qed.

Lemma only_gets_get u s : only_gets s (send (Get u) s).
Proof.
  split; [reflexivity|]. exists [Get u]. split; [reflexivity|].
  constructor; [exists u; reflexivity | constructor].
Qed.

(** X5.  On an authenticated session, [get_data], [get_profile_invoices]
    and [get_profile_transactions] never log in again: whether they
    return or raise, they leave the client object alone and every request
    they send is a GET (the credentials are not posted). *)
Theorem authenticated_session_only_gets w i s :
  _authenticated (self s) = true ->
  only_gets s (snd (get_data w s))
  /\ only_gets s (snd (get_profile_invoices w i s))
  /\ only_gets s (snd (get_profile_transactions w i s)).
Proof.
  intros A.
  assert (forall B (m : M B), (ensure_authenticated w ;;; m) s = m s) as skip.
  { intros B m. unfold bind, ensure_authenticated. rewrite A. reflexivity. }
  unfold get_data, get_profile_invoices, get_profile_transactions.
  rewrite !skip. split; [|split].
  - apply (gets_fetch_all only_gets only_gets_refl only_gets_trans only_gets_get
             w s (fst (fetch_all w s))).
    apply surjective_pairing.
  - refine (gets_status_or only_gets only_gets_refl only_gets_trans only_gets_get
              w _ (fun r => raise (FetchFailed (status r))) _ s _ _
              (surjective_pairing _)).
    intros r s1 o s2 E. inversion E; subst. apply only_gets_refl.
  - refine (gets_status_or only_gets only_gets_refl only_gets_trans only_gets_get
              w _ (fun r => raise (FetchFailed (status r))) _ s _ _
              (surjective_pairing _)).
    intros r s1 o s2 E. inversion E; subst. apply only_gets_refl.
Qed.

Lemma authenticated_session_only_gets_witness :
  only_gets logged_in (snd (get_data subscribers_unreachable_world logged_in))
  /\ fst (get_data subscribers_unreachable_world logged_in) = Raise ClientError.
Proof.
  split; [|reflexivity].
  apply (authenticated_session_only_gets subscribers_unreachable_world 0
           logged_in eq_refl).
Defined.

(** ** A refused login *)

Lemma turned_down_false w s :
  turned_down w s ->
  exists s', authenticate w s = (Ok false, s') /\ self s' = self s.
Proof.
  intros [r1 H1 N1 | r1 r2 H1 E1 H2 N2 | r1 r2 r3 j H1 E1 H2 E2 H3 E3 B3 F].
  - rewrite (authenticate_login_page_refused w s r1 H1 N1).
    eexists. split; reflexivity.
  - exact (authenticate_post_refused w s r1 r2 H1 E1 H2 N2).
  - exact (authenticate_not_verified w s r1 r2 r3 j H1 E1 H2 E2 H3 E3 B3 F).
Qed.

Lemma turned_down_same_self w s s' :
  self s' = self s -> turned_down w s -> turned_down w s'.
Proof.
  intros E [r1 H1 N1 | r1 r2 H1 E1 H2 N2 | r1 r2 r3 j H1 E1 H2 E2 H3 E3 B3 F].
  - exact (page_refused w s' r1 H1 N1).
  - apply (post_refused w s' r1 r2 H1 E1); [rewrite E; exact H2 | exact N2].
  - apply (not_verified w s' r1 r2 r3 j H1 E1); try assumption.
    rewrite E. exact H2.
Qed.

(** X6.  While the portal turns the login down, every poll of an
    unauthenticated session attempts it again: [get_data] runs
    [authenticate], goes on with the fetches, and ends with the flag
    still unset, so that the next [get_data] starts with the login as
    well. *)
Theorem refused_login_is_retried w s :
  _authenticated (self s) = false -> turned_down w s ->
  (exists s1, authenticate w s = (Ok false, s1)
              /\ get_data w s = fetch_all w s1)
  /\ _authenticated (self (snd (get_data w s))) = false
  /\ turned_down w (snd (get_data w s)).
Proof.
  intros A T. destruct (turned_down_false w s T) as (s1 & E & S1).
  assert (get_data w s = fetch_all w s1) as G.
  { unfold get_data, bind at 1, ensure_authenticated. rewrite A.
    unfold bind at 1. rewrite E. reflexivity. }
  assert (self (snd (get_data w s)) = self s) as S2.
  { rewrite G. rewrite <- S1.
    apply (fetch_all_self w s1 (fst (fetch_all w s1))).
    apply surjective_pairing. }
  split; [exists s1; split; assumption|]. split.
  - rewrite S2. exact A.
  - exact (turned_down_same_self w s _ S2 T).
Qed.

Lemma refused_login_is_retried_witness :
  sent (snd (get_data login_down_world
               (snd (get_data login_down_world fresh))))
  = [Get LOGIN_PAGE_URL; Get API_PROFILES; Get API_SUBSCRIBERS;
     Get API_SUBSCRIPTIONS_SUMMARY; Get (API_PROFILE_INVOICE_INFO "100000001");
     Get LOGIN_PAGE_URL; Get API_PROFILES; Get API_SUBSCRIBERS;
     Get API_SUBSCRIPTIONS_SUMMARY; Get (API_PROFILE_INVOICE_INFO "100000001")]
  /\ turned_down login_down_world (snd (get_data login_down_world fresh)).
Proof.
  split; [vm_compute; reflexivity|].
  apply (refused_login_is_retried login_down_world fresh eq_refl).
  apply (page_refused login_down_world fresh
           {| status := 503; url := LOGIN_PAGE_URL; body := None |});
    [reflexivity | cbn; lia].
Defined.

(** ** The summary of a snapshot *)

(** The counts and the loyalty total of a poll cycle that returns. *)
Lemma fetch_all_summary w s snap s' :
  fetch_all w s = (Ok snap, s') ->
  py_len (profiles snap) = Ok (total_profiles (summary snap))
  /\ py_len (subscribers snap) = Ok (total_subscribers (summary snap))
  /\ exists qd,
       section_outcome w SubscriptionsSummary = Ok qd
       /\ total_loyalty qd = Ok (total_loyalty_points (summary snap))
       /\ (if truthy qd then py_get qd "data" (JList []) else Ok (JList []))
          = Ok (subscriptions_summary snap).
Proof.
  unfold fetch_all.
  change (_fetch_profiles w) with (fetch_section w Profiles).
  change (_fetch_subscribers w) with (fetch_section w Subscribers).
  change (_fetch_subscriptions_summary w)
    with (fetch_section w SubscriptionsSummary).
  unfold bind at 1. rewrite fetch_section_run.
  destruct (section_outcome w Profiles) as [pd|e]; [|discriminate].
  unfold bind at 1. rewrite fetch_section_run.
  destruct (section_outcome w Subscribers) as [sd|e]; [|discriminate].
  unfold bind at 1. rewrite fetch_section_run.
  destruct (section_outcome w SubscriptionsSummary) as [qd|e] eqn:EQ;
    [|discriminate].
  unfold bind at 1, lift.
  destruct (profiles_list_of pd) as [pl|e]; [|discriminate].
  unfold bind at 1.
  destruct (_fetch_unpaid_bills w pl _) as [[ub|e] s2]; [|discriminate].
  unfold bind.
  destruct (total_loyalty qd) as [t|e] eqn:TL; [|discriminate].
  unfold assemble.
  destruct (user_of _) as [u|e]; [|discriminate]. cbn [obind].
  destruct (if truthy qd then py_get qd "data" (JList []) else Ok (JList []))
    as [ss|e] eqn:SS; [|discriminate]. cbn [obind].
  destruct (py_len pl) as [n|e] eqn:LP; [|discriminate]. cbn [obind].
  destruct (if truthy sd then py_len sd else Ok 0) as [m|e] eqn:LS;
    [|discriminate].
  cbn [obind]. intros E. inversion E; subst snap s'; clear E. cbn.
  split; [exact LP|]. split.
  - destruct (truthy sd); [exact LS|]. injection LS as <-. reflexivity.
  - exists qd. repeat split; assumption.
Qed.

Lemma iter_objects_length pl ds n :
  py_iter pl = Ok (map JDict ds) -> py_len pl = Ok n ->
  n = Z.of_nat (List.length ds).
Proof.
  destruct pl as [| | | |str|l|d]; try discriminate; cbn [py_iter py_len].
  - destruct str as [|c str']; cbn [chars].
    + destruct ds; [|discriminate]. intros _ E. injection E as <-. reflexivity.
    + destruct ds; discriminate.
  - intros E L. injection E as ->. injection L as <-.
    rewrite length_map. reflexivity.
  - destruct d as [|[k v] d']; cbn [map].
    + destruct ds; [|discriminate]. intros _ E. injection E as <-. reflexivity.
    + destruct ds; discriminate.
Qed.

(** X7.  In every snapshot [get_data] returns, [summary.total_profiles]
    is [len(profiles)], the number of profile objects the invoice loop
    went through, and [summary.total_subscribers] is [len(subscribers)]. *)
Theorem summary_counts_match_sections w s snap s' :
  get_data w s = (Ok snap, s') ->
  py_len (profiles snap) = Ok (total_profiles (summary snap))
  /\ py_len (subscribers snap) = Ok (total_subscribers (summary snap))
  /\ exists ds, py_iter (profiles snap) = Ok (map JDict ds)
                /\ total_profiles (summary snap) = Z.of_nat (List.length ds).
Proof.
  intros G. destruct (get_data_ok _ _ _ _ G) as (s1 & F & _).
  destruct (fetch_all_summary _ _ _ _ F) as (LP & LS & _).
  destruct (fetch_all_ok _ _ _ _ F) as (pd & sd & qd & ds & _ & _ & _ & _ & I & _).
  split; [exact LP|]. split; [exact LS|].
  exists ds. split; [exact I|]. exact (iter_objects_length _ _ _ I LP).
Qed.

Lemma summary_counts_match_sections_witness :
  exists snap,
    fst (get_data billing_world logged_in) = Ok snap
    /\ py_len (profiles snap) = Ok 2
    /\ py_len (subscribers snap) = Ok 0.
Proof.
  eexists. split; [vm_compute; reflexivity|].
  assert (get_data billing_world logged_in
          = (fst (get_data billing_world logged_in),
             snd (get_data billing_world logged_in))) as G
    by apply surjective_pairing.
  revert G. vm_compute (fst _). intros G.
  destruct (summary_counts_match_sections billing_world logged_in _ _ G)
    as (LP & LS & _).
  split; [exact LP | exact LS].
Defined.

(** The loyalty loop returns only over records that are objects, with the
    float sum of their points. *)
Lemma loyalty_loop_ok l : forall acc t,
  loyalty_loop l acc = Ok t ->
  exists ds, l = map JDict ds /\ float_sum acc (map points_of ds) = Ok t.
Proof.
  induction l as [|p l IH]; intros acc t; cbn [loyalty_loop].
  - intros E. exists []. split; [reflexivity | exact E].
  - destruct p as [| | | | | |d]; try discriminate. cbn [py_get obind].
    fold (points_of d).
    destruct (py_float_add acc (points_of d)) as [acc'|e] eqn:A; [|discriminate].
    cbn [obind]. intros E. destruct (IH _ _ E) as (ds & -> & S).
    exists (d :: ds). split; [reflexivity|]. cbn [map float_sum]. rewrite A.
    exact S.
Qed.

Lemma get_data_loyalty w s snap s' :
  get_data w s = (Ok snap, s') ->
  exists qd,
    section_outcome w SubscriptionsSummary = Ok qd
    /\ (if truthy qd then py_get qd "data" (JList []) else Ok (JList []))
       = Ok (subscriptions_summary snap)
    /\ forall l, subscriptions_summary snap = JList l ->
         exists ds,
           l = map JDict ds
           /\ float_sum 0%float (map points_of ds)
              = Ok (total_loyalty_points (summary snap)).
Proof.
  intros G. destruct (get_data_ok _ _ _ _ G) as (s1 & F & _).
  destruct (fetch_all_summary _ _ _ _ F) as (_ & _ & qd & Q & T & SS).
  exists qd. split; [exact Q|]. split; [exact SS|].
  intros l SL. rewrite SL in SS. unfold total_loyalty in T.
  destruct (truthy qd) eqn:TQ.
  - destruct qd as [| | | | | |dq]; try discriminate.
    cbn [py_get obind py_getitem] in T, SS.
    destruct (dict_get "data" dq) as [v|].
    + injection SS as ->. destruct l as [|p l'].
      * cbn in T. injection T as <-. exists []. split; reflexivity.
      * cbn [truthy obind py_iter] in T. exact (loyalty_loop_ok _ _ _ T).
    + injection SS as <-. cbn in T. injection T as <-.
      exists []. split; reflexivity.
  - injection SS as <-. injection T as <-. exists []. split; reflexivity.
Qed.

(** X8.  In every snapshot [get_data] returns whose
    [subscriptions_summary] is a list, the records of that list are
    objects and [summary.total_loyalty_points] is the float sum, from
    [0.0] and in list order, of their [totalPointsInOnlineShop] (0.0 when
    missing). *)
Theorem loyalty_points_sum_records w s snap s' l :
  get_data w s = (Ok snap, s') ->
  subscriptions_summary snap = JList l ->
  exists ds,
    l = map JDict ds
    /\ float_sum 0%float (map points_of ds)
       = Ok (total_loyalty_points (summary snap)).
Proof.
  intros G SL. destruct (get_data_loyalty _ _ _ _ G) as (qd & _ & _ & H).
  exact (H l SL).
Qed.

Lemma loyalty_points_sum_records_witness :
  exists snap,
    fst (get_data billing_world logged_in) = Ok snap
    /\ exists ds,
         [JDict [("totalPointsInOnlineShop", JFloat 4.38)]] = map JDict ds
         /\ float_sum 0%float (map points_of ds)
            = Ok (total_loyalty_points (summary snap)).
Proof.
  eexists. split; [vm_compute; reflexivity|].
  eapply (loyalty_points_sum_records billing_world logged_in).
  - vm_compute. reflexivity.
  - reflexivity.
Defined.

Lemma float_sum_numbers xs : forall acc t,
  float_sum acc xs = Ok t -> forall x, In x xs -> ~ not_a_number x.
Proof.
  induction xs as [|y xs IH]; intros acc t S x [].
  - subst y. cbn [float_sum] in S. intros N.
    destruct x; try contradiction; discriminate S.
  - cbn [float_sum] in S.
    destruct (py_float_add acc y) as [acc'|e]; [|discriminate].
    exact (IH _ _ S x H).
Qed.

(** X9.  The loyalty loop has no fault isolation: when the subscriptions
    summary lists a record whose [totalPointsInOnlineShop] is not a number
    ([null], a string, a list, an object), the addition raises and
    [get_data] returns no snapshot, whatever the other sections hold. *)
Theorem loyalty_failure_is_fatal w dq l d :
  section_outcome w SubscriptionsSummary = Ok (JDict dq) ->
  dict_get "data" dq = Some (JList l) ->
  In (JDict d) l -> not_a_number (points_of d) ->
  forall s snap s', get_data w s <> (Ok snap, s').
Proof.
  intros Q D HI N s snap s' G.
  destruct (get_data_loyalty _ _ _ _ G) as (qd & Q' & SS & H).
  rewrite Q in Q'. injection Q' as <-.
  assert (truthy (JDict dq) = true) as TQ
    by (destruct dq; [discriminate D | reflexivity]).
  rewrite TQ in SS. cbn [py_get] in SS. rewrite D in SS. injection SS as SS.
  destruct (H l (eq_sym SS)) as (ds & -> & S).
  apply in_map_iff in HI. destruct HI as (d' & E & HI). injection E as ->.
  apply (float_sum_numbers _ _ _ S (points_of d)); [|exact N].
  apply in_map. exact HI.
Qed.

Lemma loyalty_failure_is_fatal_witness :
  fst (get_data null_points_world logged_in) = Raise TypeError
  /\ forall s snap s', get_data null_points_world s <> (Ok snap, s').
Proof.
  split; [vm_compute; reflexivity|].
  apply (loyalty_failure_is_fatal null_points_world
           [("data", JList [JDict [("totalPointsInOnlineShop", JNull)]])]
           [JDict [("totalPointsInOnlineShop", JNull)]]
           [("totalPointsInOnlineShop", JNull)]).
  - reflexivity.
  - reflexivity.
  - left. reflexivity.
  - exact I.
Defined.

(** ** The shape of the unpaid-bills mapping *)

Lemma dict_set_keys_in {V} key (rec : V) d k :
  In k (dict_keys (dict_set key rec d)) -> k = key \/ In k (dict_keys d).
Proof.
  unfold dict_keys. intros H. apply in_map_iff in H.
  destruct H as ([k' v] & <- & H).
  destruct (dict_set_in _ _ _ _ _ H) as [E | H'].
  - left. inversion E. reflexivity.
  - right. apply in_map_iff. exists (k', v). split; [reflexivity | exact H'].
Qed.

Lemma dict_set_nodup {V} key (rec : V) d :
  NoDup (dict_keys d) -> NoDup (dict_keys (dict_set key rec d)).
Proof.
  induction d as [|[k' v'] d IH]; cbn [dict_set dict_keys map fst].
  - intros _. constructor; [intros [] | constructor].
  - intros ND. inversion ND as [|x l NI ND']; subst.
    destruct (String.eqb_spec key k') as [->|NE].
    + constructor; assumption.
    + cbn [map fst]. constructor; [|exact (IH ND')].
      intros H. destruct (dict_set_keys_in _ _ _ _ H) as [E | H'].
      * exact (NE (eq_sym E)).
      * exact (NI H').
Qed.

Lemma record_unpaid_count ub key bal rec :
  total_count ub <= total_count (record_unpaid ub key bal rec)
  <= total_count ub + 1.
Proof.
  unfold record_unpaid. destruct (py_float_add _ _); cbn [total_count]; lia.
Qed.

Lemma invoice_step_shape w p i ub :
  (NoDup (dict_keys (by_profile ub)) ->
   NoDup (dict_keys (by_profile (invoice_step w p i ub))))
  /\ total_count ub <= total_count (invoice_step w p i ub) <= total_count ub + 1.
Proof.
  unfold invoice_step.
  destruct (http_get w _) as [|r]; [split; [auto | lia]|].
  destruct (invoice_record w p i r) as [[[[key b] rec]|]|e];
    try (split; [auto | lia]).
  split.
  - rewrite by_profile_record_unpaid. apply dict_set_nodup.
  - apply record_unpaid_count.
Qed.

Lemma bills_fold_shape w ds : forall ub,
  (NoDup (dict_keys (by_profile ub)) ->
   NoDup (dict_keys (by_profile (bills_fold w ds ub))))
  /\ (forall k, In k (dict_keys (by_profile (bills_fold w ds ub))) ->
        In k (dict_keys (by_profile ub))
        \/ In k (map (py_str w) (fetched_ids ds)))
  /\ total_count ub <= total_count (bills_fold w ds ub)
     <= total_count ub + Z.of_nat (List.length (fetched_ids ds)).
Proof.
  induction ds as [|d ds IH]; intros ub; cbn [bills_fold].
  - split; [auto|]. split; [auto|]. cbn. lia.
  - unfold fetched_ids in *. cbn [map filter].
    destruct (truthy (profile_id_of d)).
    + destruct (IH (invoice_step w (JDict d) (profile_id_of d) ub))
        as (N & K & C).
      destruct (invoice_step_shape w (JDict d) (profile_id_of d) ub) as (N1 & C1).
      split; [intros H; exact (N (N1 H))|]. split.
      * intros k H. destruct (K k H) as [H1 | H1].
        -- destruct (invoice_step_keys _ _ _ _ _ H1) as [-> | H2].
           ++ right. left. reflexivity.
           ++ left. exact H2.
        -- right. right. exact H1.
      * cbn [List.length map]. lia.
    + exact (IH ub).
Qed.

(** X10.  In every snapshot [get_data] returns, [by_profile] has
    pairwise distinct keys, each the rendered id of a listed profile with
    a truthy id, and [total_count] lies between 0 and the number of such
    profiles. *)
Theorem unpaid_mapping_well_keyed w s snap s' :
  get_data w s = (Ok snap, s') ->
  exists ds,
    py_iter (profiles snap) = Ok (map JDict ds)
    /\ well_keyed w ds (unpaid_bills snap)
    /\ total_unpaid_count (summary snap) = total_count (unpaid_bills snap).
Proof.
  intros G. destruct (get_data_ok _ _ _ _ G) as (s1 & F & _).
  destruct (fetch_all_ok _ _ _ _ F)
    as (pd & sd & qd & ds & _ & _ & _ & _ & I & U & _ & _ & _ & TC & _).
  exists ds. split; [exact I|]. split; [|exact TC].
  rewrite U. destruct (bills_fold_shape w ds no_unpaid_bills) as (N & K & C).
  split; [apply N; constructor|]. split.
  - intros key H. destruct (K key H) as [[] | H1]. exact H1.
  - cbn [total_count no_unpaid_bills] in C. lia.
Qed.

Lemma unpaid_mapping_well_keyed_witness :
  exists snap,
    fst (get_data listed_twice_world logged_in) = Ok snap
    /\ exists ds,
         py_iter (profiles snap) = Ok (map JDict ds)
         /\ well_keyed listed_twice_world ds (unpaid_bills snap)
         /\ total_unpaid_count (summary snap) = total_count (unpaid_bills snap).
Proof.
  eexists. split; [vm_compute; reflexivity|].
  eapply (unpaid_mapping_well_keyed listed_twice_world logged_in).
  vm_compute. reflexivity.
Defined.

(** ** The records of the mapping *)

Lemma py_or_zero data k :
  py_or (match dict_get k data with Some v => v | None => JFloat 0 end) (JFloat 0)
  = or_zero (dict_get k data).
Proof. unfold py_or, or_zero. destruct (dict_get k data); reflexivity. Qed.

Lemma invoice_record_reflects w ds d r key bal rec :
  In d ds -> truthy (profile_id_of d) = true ->
  http_get w (API_PROFILE_INVOICE_INFO (py_str w (profile_id_of d))) = Reply r ->
  invoice_record w (JDict d) (profile_id_of d) r = Ok (Some (key, bal, rec)) ->
  record_reflects w ds key rec.
Proof.
  intros HI TI H. unfold invoice_record, response_json.
  destruct (status r =? 200) eqn:S; [|discriminate].
  destruct (body r) as [j|] eqn:B; [|discriminate]. cbn [obind].
  destruct j as [| | | | | |b]; try discriminate. cbn [py_get obind].
  destruct (dict_get "data" b) as [data|] eqn:D; [|discriminate].
  destruct (truthy data) eqn:T; cbn [negb]; [|discriminate].
  destruct data as [| | | | | |dd]; try discriminate.
  destruct (py_get (JDict dd) "totalBalanceAmount" (JFloat 0)) as [b0|e] eqn:BA;
    [|discriminate]. cbn [obind].
  destruct (py_gt0 (py_or b0 (JFloat 0))) as [[|]|e] eqn:G; try discriminate.
  destruct (positive_balance dd b0 BA G) as [HB HO]. rewrite HO in *.
  cbn [obind py_get]. rewrite !py_or_zero.
  assert (fetched_invoice w (py_str w (profile_id_of d)) = Some dd) as FI.
  { unfold fetched_invoice. rewrite H, S, B, D. reflexivity. }
  assert (forall due rec0,
            rec0 = {| amount := b0;
                      services := or_zero (dict_get "totalBalanceServices" dd);
                      installments :=
                        or_zero (dict_get "totalBalanceInstallments" dd);
                      due_date := due;
                      has_invoices :=
                        match dict_get "hasInvoicesOnProfile" dd with
                        | Some v => v
                        | None => JBool false
                        end;
                      profile_name := name_of d |} ->
            due_date_of w dd due ->
            record_reflects w ds (py_str w (profile_id_of d)) rec0) as Build.
  { intros due rec0 -> DD. exists dd. cbn.
    split; [exact FI|]. split; [exact HB|].
    split; [reflexivity|]. split; [reflexivity|]. split; [reflexivity|].
    split; [exact DD|]. exists d. repeat split; assumption. }
  unfold due_date_of in Build.
  destruct (dict_get "dueDate" dd) as [ts|].
  - destruct (truthy ts).
    + destruct (fromtimestamp_date w ts) as [dstr|e] eqn:FT; [|discriminate].
      cbn [obind]. intros E. injection E as <- <- <-.
      apply (Build (Some dstr)); [reflexivity|].
      exists dstr. split; reflexivity.
    + cbn [obind]. intros E. injection E as <- <- <-.
      apply (Build None); reflexivity.
  - cbn [truthy obind]. intros E. injection E as <- <- <-.
    apply (Build None); reflexivity.
Qed.

Lemma bills_fold_reflects w ds0 ds : forall ub,
  incl ds ds0 ->
  (forall key rec, In (key, rec) (by_profile ub) -> record_reflects w ds0 key rec) ->
  forall key rec, In (key, rec) (by_profile (bills_fold w ds ub)) ->
                  record_reflects w ds0 key rec.
Proof.
  induction ds as [|d ds IH]; intros ub Inc P; cbn [bills_fold].
  - exact P.
  - assert (incl ds ds0) as Inc' by (intros x Hx; apply Inc; right; exact Hx).
    destruct (truthy (profile_id_of d)) eqn:TI; [|exact (IH ub Inc' P)].
    apply (IH _ Inc'). unfold invoice_step.
    destruct (http_get w _) as [|r] eqn:H; [exact P|].
    destruct (invoice_record w (JDict d) (profile_id_of d) r)
      as [[[[k b] rec0]|]|e] eqn:I; try exact P.
    intros key rec. rewrite by_profile_record_unpaid. intros HI.
    destruct (dict_set_in _ _ _ _ _ HI) as [E | HI'].
    + inversion E; subst key rec.
      apply (invoice_record_reflects w ds0 d r k b rec0); try assumption.
      apply Inc. left. reflexivity.
    + exact (P _ _ HI').
Qed.

(** X11.  In every snapshot [get_data] returns, each record of
    [by_profile] reflects the invoice fetched for its key: its amount is
    the invoice's [totalBalanceAmount]; services and installments are the
    invoice's values, or 0.0 when missing or falsy (never [null]);
    [has_invoices] defaults to [False]; the due date is none when
    [dueDate] is missing or falsy and the local date of the timestamp
    otherwise; and the name is that of a listed profile rendering to the
    key, ["Unknown"] when it has none. *)
Theorem unpaid_records_reflect_invoices w s snap s' :
  get_data w s = (Ok snap, s') ->
  exists ds,
    py_iter (profiles snap) = Ok (map JDict ds)
    /\ forall key rec, In (key, rec) (by_profile (unpaid_bills snap)) ->
                       record_reflects w ds key rec.
Proof.
  intros G. destruct (get_data_ok _ _ _ _ G) as (s1 & F & _).
  destruct (fetch_all_ok _ _ _ _ F)
    as (pd & sd & qd & ds & _ & _ & _ & _ & I & U & _).
  exists ds. split; [exact I|]. rewrite U.
  apply (bills_fold_reflects w ds ds no_unpaid_bills).
  - intros x Hx. exact Hx.
  - intros key rec [].
Qed.

Lemma unpaid_records_reflect_invoices_witness :
  exists snap,
    fst (get_data billing_world logged_in) = Ok snap
    /\ exists ds,
         py_iter (profiles snap) = Ok (map JDict ds)
         /\ forall key rec, In (key, rec) (by_profile (unpaid_bills snap)) ->
                            record_reflects billing_world ds key rec.
Proof.
  eexists. split; [vm_compute; reflexivity|].
  eapply (unpaid_records_reflect_invoices billing_world logged_in).
  vm_compute. reflexivity.
Defined.

(** ** Profiles and invoices *)

(** X12.  The unpaid bills depend on the profiles: when the profiles
    request is answered with a status other than 200, a snapshot that is
    returned has no profile, no unpaid bill and zero totals, and no
    invoice request was sent. *)
Theorem profiles_outage_blanks_unpaid_bills w r s snap s' :
  http_get w API_PROFILES = Reply r -> status r <> 200 ->
  get_data w s = (Ok snap, s') ->
  profiles snap = JList []
  /\ unpaid_bills snap = no_unpaid_bills
  /\ total_unpaid_amount (summary snap) = 0%float
  /\ total_unpaid_count (summary snap) = 0
  /\ exists before, sent s' = (before ++ section_requests)%list.
Proof.
  intros H N G. destruct (get_data_ok _ _ _ _ G) as (s1 & F & _).
  destruct (fetch_all_ok _ _ _ _ F)
    as (pd & sd & qd & ds & EP & _ & _ & EL & I & U & _ & _ & TA & TC & ->).
  rewrite (section_outcome_degraded w Profiles r H N) in EP.
  injection EP as <-. injection EL as EL. rewrite <- EL in *.
  cbn [py_iter] in I. injection I as I. destruct ds; [|discriminate I].
  cbn [bills_fold] in U. rewrite TA, TC, U.
  repeat split. exists (sent s1). cbn. try rewrite app_nil_r. reflexivity.
Qed.

Lemma profiles_outage_blanks_unpaid_bills_witness :
  exists snap,
    fst (get_data profiles_down_world logged_in) = Ok snap
    /\ unpaid_bills snap = no_unpaid_bills
    /\ sent (snd (get_data profiles_down_world logged_in)) = section_requests.
Proof.
  eexists. split; [vm_compute; reflexivity|]. split; [|reflexivity].
  assert (status {| status := 500; url := API_PROFILES; body := None |} <> 200)
    as N by (cbn; lia).
  assert (exists s', get_data profiles_down_world logged_in = (Ok _, s'))
    as (s' & G) by (eexists; vm_compute; reflexivity).
  exact (proj1 (proj2 (profiles_outage_blanks_unpaid_bills profiles_down_world
                         _ logged_in _ s' eq_refl N G))).
Defined.

(** X13.  The two readers of the invoice endpoint differ on a failure: for
    a reply with a status other than 200, [get_profile_invoices] raises
    with the status, while the invoice loop swallows it and leaves the
    profile without a record; both send the same single request. *)
Theorem invoice_readers_on_failure w s n d r :
  _authenticated (self s) = true ->
  profile_id_of d = JInt n -> n <> 0 ->
  http_get w (API_PROFILE_INVOICE_INFO (string_of_Z n)) = Reply r ->
  status r <> 200 ->
  get_profile_invoices w n s
  = (Raise (FetchFailed (status r)),
     send (Get (API_PROFILE_INVOICE_INFO (string_of_Z n))) s)
  /\ _fetch_unpaid_bills w (JList [JDict d]) s
     = (Ok no_unpaid_bills,
        send (Get (API_PROFILE_INVOICE_INFO (string_of_Z n))) s).
Proof.
  intros A P NZ H N. apply Z.eqb_neq in N. split.
  - unfold get_profile_invoices, bind at 1, ensure_authenticated. rewrite A.
    unfold bind, session_get. rewrite H, N. reflexivity.
  - change (JList [JDict d]) with (JList (map JDict [d])).
    rewrite fetch_unpaid_bills_run. unfold fetched_ids. cbn [map filter bills_fold].
    rewrite P. cbn [truthy]. apply Z.eqb_neq in NZ. rewrite NZ. cbn [negb map].
    unfold invoice_step, invoice_request. cbn [py_str]. rewrite H.
    unfold invoice_record. rewrite N.
    unfold sends, send. reflexivity.
Qed.

Lemma invoice_readers_on_failure_witness :
  get_profile_invoices bad_due_date_world 1 logged_in
  = (Raise (FetchFailed 500),
     send (Get (API_PROFILE_INVOICE_INFO (string_of_Z 1))) logged_in)
  /\ _fetch_unpaid_bills bad_due_date_world (JList [JDict profile_1]) logged_in
     = (Ok no_unpaid_bills,
        send (Get (API_PROFILE_INVOICE_INFO (string_of_Z 1))) logged_in).
Proof.
  apply (invoice_readers_on_failure bad_due_date_world logged_in 1 profile_1
           {| status := 500; url := ""; body := None |});
    try reflexivity; cbn; lia.
Defined.

(** *** Integer profile ids *)

Lemma string_of_Z_inj z1 z2 : string_of_Z z1 = string_of_Z z2 -> z1 = z2.
Proof.
  unfold string_of_Z. intros E.
  assert (forall z, NilZero.int_of_string (NilZero.string_of_int (Z.to_int z))
                    = Some (Z.to_int z)) as RT.
  { intros z. apply NilZero.isi; destruct z; cbn; try discriminate;
      intros C; injection C as C; exact (Unsigned.to_uint_nonnil _ C). }
  assert (Some (Z.to_int z1) = Some (Z.to_int z2)) as S
    by (rewrite <- !RT, E; reflexivity).
  injection S as S. rewrite <- (DecimalZ.of_to z1), <- (DecimalZ.of_to z2), S.
  reflexivity.
Qed.

Lemma integer_keys_nodup w zs :
  NoDup zs -> NoDup (map (py_str w) (filter truthy (map JInt zs))).
Proof.
  induction 1 as [|z zs NI ND IH]; cbn [map filter].
  - constructor.
  - destruct (truthy (JInt z)); [|exact IH]. cbn [map]. constructor; [|exact IH].
    intros H. apply in_map_iff in H. destruct H as (x & E & H).
    apply filter_In in H. destruct H as [H _].
    apply in_map_iff in H. destruct H as (z' & <- & H).
    cbn [py_str] in E. apply string_of_Z_inj in E. subst z'. exact (NI H).
Qed.

(** X14.  When the profiles of a snapshot are objects whose ids are
    pairwise distinct integers, no two of them share a key (or an invoice
    URL), so that, whenever the amounts can be summed,
    [summary.total_unpaid_amount] is their float sum and
    [summary.total_unpaid_count] is the number of entries of
    [by_profile]. *)
Theorem distinct_integer_ids_tally w s snap s' ds zs t :
  get_data w s = (Ok snap, s') ->
  py_iter (profiles snap) = Ok (map JDict ds) ->
  map profile_id_of ds = map JInt zs -> NoDup zs ->
  float_sum 0%float (amounts (unpaid_bills snap)) = Ok t ->
  NoDup (profile_keys w (profiles snap))
  /\ total_unpaid_amount (summary snap) = t
  /\ total_unpaid_count (summary snap)
     = Z.of_nat (List.length (by_profile (unpaid_bills snap))).
Proof.
  intros G I IDS ND FS. destruct (get_data_ok _ _ _ _ G) as (s1 & F & _).
  destruct (fetch_all_ok _ _ _ _ F)
    as (pd & sd & qd & ds' & _ & _ & _ & _ & I' & U & _ & _ & TA & TC & _).
  rewrite I in I'. injection I' as I'.
  assert (ds' = ds) as ->.
  { clear -I'. revert ds' I'. induction ds as [|d ds IH]; intros [|d' ds'] E;
      try discriminate; [reflexivity|].
    cbn in E. injection E as -> E. rewrite (IH _ E). reflexivity. }
  assert (NoDup (map (py_str w) (fetched_ids ds))) as NK.
  { unfold fetched_ids. rewrite IDS. exact (integer_keys_nodup w zs ND). }
  split; [rewrite (profile_keys_dicts _ _ _ I); exact NK|].
  rewrite TA, TC.
  assert (tallied (unpaid_bills snap)) as Tal.
  { rewrite U. apply bills_fold_tallied.
    - exact NK.
    - intros k [].
    - intros t0 E. cbn in E. injection E as <-. split; reflexivity. }
  exact (Tal t FS).
Qed.

Lemma distinct_integer_ids_tally_witness :
  exists snap,
    fst (get_data billing_world logged_in) = Ok snap
    /\ NoDup (profile_keys billing_world (profiles snap))
    /\ total_unpaid_amount (summary snap) = 129.41%float
    /\ total_unpaid_count (summary snap)
       = Z.of_nat (List.length (by_profile (unpaid_bills snap))).
Proof.
  eexists. split; [vm_compute; reflexivity|].
  eapply (distinct_integer_ids_tally billing_world logged_in _ _
            [[("id", JInt 100000001); ("name", JStr "John Doe")]; profile_2]
            [100000001; 2]).
  - vm_compute. reflexivity.
  - reflexivity.
  - reflexivity.
  - constructor; [intros [H | []]; discriminate H|].
    constructor; [intros []|]. constructor.
  - vm_compute. reflexivity.
Defined.

(** ** The per-profile unpaid-bills sensor *)

Lemma dict_get_in {V} k (d : list (string * V)) v :
  dict_get k d = Some v -> In (k, v) d.
Proof.
  induction d as [|[k' v'] d IH]; cbn [dict_get]; [discriminate|].
  destruct (String.eqb_spec k k') as [->|_].
  - intros E. injection E as ->. left. reflexivity.
  - intros E. right. exact (IH E).
Qed.

Lemma dict_get_of_key {V} k (d : list (string * V)) :
  In k (dict_keys d) -> exists v, dict_get k d = Some v.
Proof.
  induction d as [|[k' v'] d IH]; cbn [dict_get dict_keys map fst]; [intros []|].
  destruct (String.eqb_spec k k') as [->|NE].
  - intros _. exists v'. reflexivity.
  - intros [E | H]; [exfalso; exact (NE (eq_sym E)) | exact (IH H)].
Qed.

Lemma dict_get_none {V} k (d : list (string * V)) :
  dict_get k d = None -> ~ In k (dict_keys d).
Proof.
  intros N H. destruct (dict_get_of_key k d H) as (v & E). congruence.
Qed.

(** X15.  After a poll cycle, the unpaid-bills sensor of the integer
    profile id [n] reads the record the cycle stored under [str(n)]: it
    shows either 0.0, when the mapping has no such key, or the
    [totalBalanceAmount] fetched for that profile, which passed [> 0];
    and it does show that balance for every listed profile with the
    nonzero integer id [n] whose invoice was fetched with a positive
    balance and a due date that is missing, falsy or converts. *)
Theorem profile_unpaid_sensor_reads_balance w s snap s' n :
  get_data w s = (Ok snap, s') ->
  ((OrangeProfileUnpaidBillsSensor_native_value (Some snap) n = JFloat 0
    /\ ~ In (string_of_Z n) (dict_keys (by_profile (unpaid_bills snap))))
   \/ (fetched_balance w (string_of_Z n)
       = Some (OrangeProfileUnpaidBillsSensor_native_value (Some snap) n)
       /\ py_gt0 (OrangeProfileUnpaidBillsSensor_native_value (Some snap) n)
          = Ok true))
  /\ (forall ds d data bal,
        py_iter (profiles snap) = Ok (map JDict ds) ->
        In d ds -> profile_id_of d = JInt n -> n <> 0 ->
        fetched_invoice w (string_of_Z n) = Some data ->
        dict_get "totalBalanceAmount" data = Some bal ->
        py_gt0 bal = Ok true ->
        due_date_converts w data ->
        OrangeProfileUnpaidBillsSensor_native_value (Some snap) n = bal).
Proof.
  intros G. destruct (get_data_ok _ _ _ _ G) as (s1 & F & _).
  destruct (fetch_all_ok _ _ _ _ F)
    as (pd & sd & qd & ds0 & _ & _ & _ & _ & I0 & U & _).
  assert (records_positive w (unpaid_bills snap)) as P.
  { rewrite U. apply bills_fold_positive. intros key rec []. }
  unfold OrangeProfileUnpaidBillsSensor_native_value. split.
  - destruct (dict_get (string_of_Z n) (by_profile (unpaid_bills snap)))
      as [rec|] eqn:DG.
    + right. destruct (P _ _ (dict_get_in _ _ _ DG)) as [B Q].
      split; assumption.
    + left. split; [reflexivity | exact (dict_get_none _ _ DG)].
  - intros ds d data bal I HI ID NZ FI T Q C.
    rewrite I in I0. injection I0 as I0.
    assert (ds0 = ds) as ->.
    { clear -I0. revert ds0 I0. induction ds as [|x ds IH]; intros [|x' ds0] E;
        try discriminate; [reflexivity|].
      cbn in E. injection E as -> E. rewrite <- (IH _ E). reflexivity. }
    assert (In (string_of_Z n) (dict_keys (by_profile (unpaid_bills snap)))) as K.
    { rewrite U. clear -HI ID NZ FI T Q C.
      generalize no_unpaid_bills as ub.
      induction ds as [|d0 ds IH]; intros ub; [destruct HI|].
      cbn [bills_fold]. destruct HI as [-> | HI].
      - rewrite ID. cbn [truthy]. apply Z.eqb_neq in NZ. rewrite NZ. cbn [negb].
        apply bills_fold_keeps.
        exact (invoice_step_stores w d (JInt n) ub data bal FI T Q C).
      - destruct (truthy (profile_id_of d0)); exact (IH HI _). }
    destruct (dict_get_of_key _ _ K) as (rec & DG). rewrite DG.
    destruct (P _ _ (dict_get_in _ _ _ DG)) as [B _].
    unfold fetched_balance in B. rewrite FI, T in B. injection B as <-.
    reflexivity.
Qed.

Lemma profile_unpaid_sensor_reads_balance_witness :
  exists snap,
    fst (get_data billing_world logged_in) = Ok snap
    /\ OrangeProfileUnpaidBillsSensor_native_value (Some snap) 100000001
       = JFloat 129.41
    /\ OrangeProfileUnpaidBillsSensor_native_value (Some snap) 2 = JFloat 0.
Proof.
  eexists. split; [vm_compute; reflexivity|]. split; [|reflexivity].
  assert (exists s', get_data billing_world logged_in = (Ok _, s')) as (s' & G)
    by (eexists; vm_compute; reflexivity).
  refine (proj2 (profile_unpaid_sensor_reads_balance billing_world logged_in _
                   s' 100000001 G)
            [[("id", JInt 100000001); ("name", JStr "John Doe")]; profile_2]
            [("id", JInt 100000001); ("name", JStr "John Doe")]
            [("totalBalanceAmount", JFloat 129.41);
             ("dueDate", JInt 1771200000000)]
            (JFloat 129.41) _ _ _ _ _ _ _ _); try reflexivity.
  - left. reflexivity.
  - lia.
  - hnf. right. eexists. vm_compute. reflexivity.
Defined.
